(** * MarketLens: news sentiment aggregation and the two front ends

    A shallow embedding of [desktop_stock_app.py] (the Tk window) and
    [stock_app.py] (the Streamlit dashboard): the aggregation block that
    both share, the desktop NewsAPI fetch wrapper with its try/except, and
    the order in which each front end calls its collaborators.

    Python floats are IEEE 754 binary64 values; they are modelled by the
    Standard Library's [spec_float] with the binary64 parameters, so every
    definition below computes. *)

From Stdlib Require Import ZArith List String Ascii Bool Lia Permutation.
From Stdlib Require Import Floats.SpecFloat.
From stdpp Require Import base decidable countable list gmap sets strings.

Set Warnings "-clear-no-such-hyp".

(** ** binary64 *)

Module Binary64.

Definition prec : Z := 53%Z.
Definition emax : Z := 1024%Z.

Definition float64 : Type := spec_float.

Definition add (x y : float64) : float64 := SFadd prec emax x y.
Definition div (x y : float64) : float64 := SFdiv prec emax x y.

Definition zero : float64 := S754_zero false.

(** An integer count converted to a float, as in [ret / rcount]. *)
Definition of_count (n : nat) : float64 :=
  binary_normalize prec emax (Z.of_nat n) 0%Z false.

(** Literals: [m * 2^e], the nearest binary64 value of the decimal. *)
Definition f0_5 : float64 := S754_finite false 4503599627370496%positive (-53)%Z.
Definition fm0_5 : float64 := S754_finite true 4503599627370496%positive (-53)%Z.
Definition f0_1 : float64 := S754_finite false 7205759403792794%positive (-56)%Z.
Definition f0_2 : float64 := S754_finite false 7205759403792794%positive (-55)%Z.
Definition f0_3 : float64 := S754_finite false 5404319552844595%positive (-54)%Z.
Definition f0_4 : float64 := S754_finite false 7205759403792794%positive (-54)%Z.
Definition f0_6 : float64 := S754_finite false 5404319552844595%positive (-53)%Z.
Definition f0_8 : float64 := S754_finite false 7205759403792794%positive (-53)%Z.


(** *** [np.mean] on a one-dimensional float64 array

    NumPy adds the elements of a contiguous array with its pairwise
    summation: fewer than eight elements are added from left to right;
    up to 128 elements are added in eight interleaved lanes that are then
    combined, the remainder being added one by one; longer arrays are cut
    in two at a multiple of eight. The reduction starts from the identity
    [0.0], and the sum is divided by the element count. *)

Definition sequential_sum (a : list float64) : float64 :=
  fold_left add a zero.

Fixpoint lanes_loop (a : list (list float64)) (r : list float64)
  : list float64 :=
  match a with
  | [] => r
  | chunk :: rest => lanes_loop rest (zip_with add r chunk)
  end.

Fixpoint chunks8 (fuel : nat) (a : list float64) : list (list float64) :=
  match fuel with
  | O => []
  | S k =>
      match a with
      | [] => []
      | _ => take 8 a :: chunks8 k (drop 8 a)
      end
  end.

Definition combine_lanes (r : list float64) : float64 :=
  match r with
  | [r0; r1; r2; r3; r4; r5; r6; r7] =>
      add (add (add r0 r1) (add r2 r3)) (add (add r4 r5) (add r6 r7))
  | _ => zero
  end.

Definition block_sum (a : list float64) : float64 :=
  let n := length a in
  let full := (n - n mod 8)%nat in
  let body := take full a in
  let r := lanes_loop (chunks8 n (drop 8 body)) (take 8 body) in
  fold_left add (drop full a) (combine_lanes r).

Fixpoint pairwise_sum (fuel : nat) (a : list float64) : float64 :=
  let n := length a in
  if (n <? 8)%nat then sequential_sum a
  else if (n <=? 128)%nat then block_sum a
  else
    match fuel with
    | O => block_sum a
    | S k =>
        let n2 := (n / 2)%nat in
        let n2 := (n2 - n2 mod 8)%nat in
        add (pairwise_sum k (take n2 a)) (pairwise_sum k (drop n2 a))
    end.

Definition np_sum (a : list float64) : float64 :=
  add zero (pairwise_sum (length a) a).

Definition np_mean (a : list float64) : float64 :=
  div (np_sum a) (of_count (length a)).

End Binary64.
Import Binary64.

(** ** The aggregation block

    A fetched sample is the pair a fetcher returns: the sentiment, [None]
    when the source gave none, and the list of titles. Titles are whatever
    hashable objects the fetcher put in the list. *)

Definition sample (T : Type) : Type := option float64 * list T.

Definition sentinel {T : Type} : sample T := (None, []).

Section Aggregation.
Context {T : Type} {T_eq : EqDecision T} {T_countable : Countable T}.

(** The variables the block assigns. *)
Record vars : Type := Vars {
  combined_sentiments : list float64;
  combined_news_titles : list T;
  overall_news_sentiment : option float64
}.

(** [combined_sentiments = []; combined_news_titles = []] *)
Definition reset (v : vars) : vars :=
  Vars [] [] (overall_news_sentiment v).

(** [if s is not None: combined_sentiments.append(s);
     combined_news_titles.extend(titles)] *)
Definition collect (src : sample T) (v : vars) : vars :=
  match fst src with
  | Some s =>
      Vars (combined_sentiments v ++ [s])
           (combined_news_titles v ++ snd src)
           (overall_news_sentiment v)
  | None => v
  end.

(** [[t for t in titles if not (t in seen or seen.add(t))]] *)
Fixpoint unique_titles (seen : gset T) (titles : list T) : list T :=
  match titles with
  | [] => []
  | t :: rest =>
      if decide (t ∈ seen) then unique_titles seen rest
      else t :: unique_titles ({[t]} ∪ seen) rest
  end.

(** [if combined_news_titles: ... combined_news_titles = unique_titles] *)
Definition dedup_titles (v : vars) : vars :=
  match combined_news_titles v with
  | [] => v
  | titles =>
      Vars (combined_sentiments v) (unique_titles ∅ titles)
           (overall_news_sentiment v)
  end.

(** [overall_news_sentiment = None
     if combined_sentiments: overall_news_sentiment = np.mean(...)] *)
Definition average (v : vars) : vars :=
  match combined_sentiments v with
  | [] => Vars (combined_sentiments v) (combined_news_titles v) None
  | scores =>
      Vars (combined_sentiments v) (combined_news_titles v)
           (Some (np_mean scores))
  end.

(** desktop_stock_app.py, lines 124 to 135. *)
Definition desktop_aggregation (newsapi rss : sample T) (v : vars) : vars :=
  let v := reset v in
  let v := collect newsapi v in
  let v := collect rss v in
  average v.

(** stock_app.py, lines 216 to 235. *)
Definition web_aggregation (newsapi gnews : sample T) (v : vars) : vars :=
  let v := reset v in
  let v := collect newsapi v in
  let v := collect gnews v in
  let v := dedup_titles v in
  average v.

(** [set(combined_news_titles)], of which both front ends list five. *)
Definition title_set (v : vars) : gset T :=
  list_to_set (combined_news_titles v).

(** The same block over any number of fetched samples. *)
Inductive front_end : Type := Desktop | Web.

Definition collect_all (samples : list (sample T)) (v : vars) : vars :=
  fold_left (fun v src => collect src v) samples v.

Definition aggregate (fe : front_end) (samples : list (sample T))
           (v : vars) : vars :=
  let v := collect_all samples (reset v) in
  let v := match fe with Web => dedup_titles v | Desktop => v end in
  average v.

(** What the samples contribute. *)
Definition scores (samples : list (sample T)) : list float64 :=
  omap fst samples.

Definition contributing (src : sample T) : bool :=
  match fst src with Some _ => true | None => false end.

Definition contributed_titles (samples : list (sample T)) : list T :=
  flat_map (fun src => if contributing src then snd src else []) samples.

(** A sample with its titles taken away. *)
Definition without_titles (src : sample T) : sample T := (fst src, []).

Definition unbound : vars := Vars [] [] None.

(** The mean of the scores, when there is one to take. *)
Definition mean_or_None (l : list float64) : option float64 :=
  match l with [] => None | _ => Some (np_mean l) end.

End Aggregation.

(** ** Python strings

    The ticker is typed text. [str.strip()] removes the characters for
    which [str.isspace] holds from both ends and [str.upper()] maps the
    lower-case letters to upper case; they are given here on the ASCII
    range, other characters being kept as they are. *)

Module PyStr.

Definition is_whitespace (c : ascii) : bool :=
  let n := nat_of_ascii c in
  ((9 <=? n)%nat && (n <=? 13)%nat) || ((28 <=? n)%nat && (n <=? 32)%nat).

Fixpoint lstrip (s : string) : string :=
  match s with
  | EmptyString => EmptyString
  | String c rest => if is_whitespace c then lstrip rest else s
  end.

Fixpoint rstrip (s : string) : string :=
  match s with
  | EmptyString => EmptyString
  | String c rest =>
      match rstrip rest with
      | EmptyString =>
          if is_whitespace c then EmptyString else String c EmptyString
      | kept => String c kept
      end
  end.

Definition strip (s : string) : string := rstrip (lstrip s).

Definition upper_char (c : ascii) : ascii :=
  let n := nat_of_ascii c in
  if ((97 <=? n)%nat && (n <=? 122)%nat) then ascii_of_nat (n - 32) else c.

Fixpoint upper (s : string) : string :=
  match s with
  | EmptyString => EmptyString
  | String c rest => String (upper_char c) (upper rest)
  end.

Fixpoint endswith (s suffix : string) : bool :=
  if String.eqb s suffix then true
  else
    match s with
    | EmptyString => false
    | String _ rest => endswith rest suffix
    end.

(** Truth value of a string: non-empty. *)
Definition truthy (s : string) : bool :=
  match s with EmptyString => false | String _ _ => true end.

(** Truth value of [os.environ.get(...)] and of an optional message. *)
Definition truthy_opt (o : option string) : bool :=
  match o with Some s => truthy s | None => false end.

End PyStr.
Import PyStr.

(** ** Effects: calls to collaborators, message boxes, exceptions

    A [str] of the program is held as the [string] of its UTF-8 bytes:
    the literals of the sources are ASCII, and concatenation, equality,
    emptiness and [endswith] are the same on the bytes. [str.strip] and
    [str.upper] are the built-ins of Python and come into the front ends
    as [strip] and [upper]; [PyStr] above is what they are on ASCII. *)

(** A title object in a fetched list: a [str], or [None] where the JSON
    of the article has [null]. *)
Definition title : Type := option string.

(** A key of a JSON object: not there, [null], or a value. *)
Inductive json_field (A : Type) : Type :=
| Missing
| Null
| Value (a : A).
Arguments Missing {A}.
Arguments Null {A}.
Arguments Value {A} a.

(** Instances of [Exception]. A [NewsAPIException] carries the payload of
    the response: [text] is what [str(e)] gives, [message] is the payload
    under ['message']. *)
Inductive exn : Type :=
| NewsAPIException (text : string) (message : json_field string)
| KeyError (key : string)
| TypeError (message : string)
| OtherException (text : string).

Definition exn_str (e : exn) : string :=
  match e with
  | NewsAPIException text _ => text
  | KeyError k => String.append "'" (String.append k "'")
  | TypeError m => m
  | OtherException m => m
  end.

Inductive chart : Type := price_volume_chart | rsi_chart | macd_chart.

(** What a front end does that can be seen from outside its own code: the
    calls to its collaborators with the arguments that matter, and the
    messages about the input and the market data. The rendering of the
    results is left out. *)
Inductive event : Type :=
| showwarning (caption message : string)
| showerror (caption message : string)
| clear_output
| output_insert (text : string)
| st_info (text : string)
| st_warning (text : string)
| st_error (text : string)
| call_get_stock_data (ticker : string)
| call_create_chart (kind : chart) (ticker : string)
| call_calculate_technical_indicators
| call_get_everything (q : string)
| call_analyze_sentiment (text : string)
| call_fetch_rss (url ticker : string)
| call_fetch_newsapi (ticker : string)
| call_fetch_gnews (ticker : string)
| call_analyze_stock (sentiment : option float64)
| call_enhanced_analysis (ticker : string) (sentiment : option float64)
                         (titles : list title)
| call_summarize (titles : list title) (ticker : string)
| call_extract_financial_events (text : string)
| call_assess_impact
| call_generate_signal.

Inductive outcome (A : Type) : Type :=
| Return (a : A)
| Raise (e : exn).
Arguments Return {A} a.
Arguments Raise {A} e.

(** A computation: how it ends and the events it caused, in order. *)
Definition M (A : Type) : Type := outcome A * list event.

Definition ret {A} (a : A) : M A := (Return a, []).
Definition raise {A} (e : exn) : M A := (Raise e, []).
Definition tell (e : event) : M unit := (Return tt, [e]).

Definition bind {A B} (m : M A) (k : A -> M B) : M B :=
  match m with
  | (Return a, t) => let '(r, t') := k a in (r, t ++ t')
  | (Raise e, t) => (Raise e, t)
  end.

(** [try: body  except ...: handler] *)
Definition try_except {A} (body : M A) (handler : exn -> M A) : M A :=
  match body with
  | (Return a, t) => (Return a, t)
  | (Raise e, t) => let '(r, t') := handler e in (r, t ++ t')
  end.

(** A collaborator that returns: the call is recorded, the value passed on. *)
Definition call {A} (e : event) (a : A) : M A := (Return a, [e]).

(** A collaborator that may raise. *)
Definition call_raising {A} (e : event) (r : outcome A) : M A := (r, [e]).

Declare Scope py_scope.
Delimit Scope py_scope with py.
Notation "x <- m ;; k" := (bind m (fun x => k))
  (at level 90, m at next level, right associativity) : py_scope.
Notation "m ;;; k" := (bind m (fun _ => k))
  (at level 90, right associativity) : py_scope.
Open Scope py_scope.

Definition trace {A} (m : M A) : list event := snd m.
Definition result {A} (m : M A) : outcome A := fst m.

(** ** The NewsAPI response, as far as the wrapper looks into it *)

Record article : Type := Article {
  article_title : json_field string;
  article_description : json_field string
}.

(** [None], or a dict that may have the key ['articles'] and other keys. *)
Inductive response : Type :=
| response_None
| response_dict (other_keys : bool) (articles : json_field (list article)).

Definition response_truthy (r : response) : bool :=
  match r with
  | response_None => false
  | response_dict other_keys articles =>
      other_keys || match articles with Missing => false | _ => true end
  end.

(** [articles_response['articles']] *)
Definition getitem_articles (r : response) : outcome (list article) :=
  match r with
  | response_None =>
      Raise (TypeError "'NoneType' object is not subscriptable")
  | response_dict _ Missing => Raise (KeyError "articles")
  | response_dict _ Null => Return []
  | response_dict _ (Value l) => Return l
  end.

(** Truth value of [article.get(key)]. *)
Definition field_truthy (f : json_field string) : bool :=
  match f with Value s => truthy s | _ => false end.

(** [article.get('title', '') + " " + (article.get('description', '') or "")] *)
Definition article_text (a : article) : outcome string :=
  let description :=
    match article_description a with Value d => d | _ => EmptyString end in
  match article_title a with
  | Missing => Return (String.append " " description)
  | Null =>
      Raise (TypeError "unsupported operand type(s) for +: 'NoneType' and 'str'")
  | Value t => Return (String.append t (String.append " " description))
  end.

(** [article.get('title', 'No Title')] *)
Definition article_get_title (a : article) : title :=
  match article_title a with
  | Missing => Some "No Title"%string
  | Null => None
  | Value t => Some t
  end.

(** [NewsAPIException.get_message] of the newsapi library:
    [self.exception["message"]] when that is truthy, else [None]. *)
Definition get_message (message : json_field string) : outcome (option string) :=
  match message with
  | Missing => Raise (KeyError "message")
  | Null => Return None
  | Value m => if truthy m then Return (Some m) else Return None
  end.

(** ** The desktop front end *)

(** What [get_stock_data] returns, without the fundamentals, which are
    only passed on. *)
Record stock_data (H : Type) : Type := StockData {
  historical_data : option H;
  current_price : option float64;
  error : option string
}.
Arguments StockData {H} _ _ _.
Arguments historical_data {H} _.
Arguments current_price {H} _.
Arguments error {H} _.

(** [f"Current Price: ${current_price:.2f}"] *)
Definition format_price (price : option float64) : outcome unit :=
  match price with
  | Some _ => Return tt
  | None =>
      Raise (TypeError
               "unsupported format string passed to NoneType.__format__")
  end.

Section Desktop.

(** The built-ins [str.strip] and [str.upper]. *)
Variable strip : string -> string.
Variable upper : string -> string.

(** The collaborators. *)
Variable H : Type.
Variable df_empty : H -> bool.
Variable get_stock_data : string -> stock_data H.
Variable newsapi_client_gui : option (string -> outcome response).
Variable analyze_sentiment : string -> outcome float64.
Variable BASE_GOOGLE_NEWS_RSS_URL_format : string -> string.
Variable fetch_news_sentiment_from_rss : string -> string -> sample title.
Variable DEEPSEEK_API_KEY : option string.

(** The comprehension that scores the articles, in order. *)
Fixpoint article_sentiments (all_articles : list article)
  : M (list float64) :=
  match all_articles with
  | [] => ret []
  | a :: rest =>
      if field_truthy (article_title a)
         || field_truthy (article_description a)
      then
        text <- (article_text a, []) ;;
        s <- call_raising (call_analyze_sentiment text)
                          (analyze_sentiment text) ;;
        ss <- article_sentiments rest ;;
        ret (s :: ss)
      else article_sentiments rest
  end.

(** The two [except] clauses, lines 232 to 241. The first one formats
    [e.get_message()], which is evaluated inside the handler. *)
Definition except_handlers (e : exn) : M (sample title) :=
  match e with
  | NewsAPIException _ message =>
      m <- (get_message message, []) ;;
      tell (showerror "NewsAPI Error"
              (String.append "NewsAPI Error: " (default "None"%string m))) ;;;
      ret (None, [])
  | _ =>
      tell (showerror "NewsAPI Error"
              (String.append
                 "An unexpected error occurred during NewsAPI fetch: "
                 (exn_str e))) ;;;
      ret (None, [])
  end.

Definition _fetch_news_from_newsapi_for_gui (ticker_symbol : string)
  : M (sample title) :=
  match newsapi_client_gui with
  | None => ret (None, [])
  | Some client =>
      try_except
        (articles_response <-
           call_raising (call_get_everything ticker_symbol)
                        (client ticker_symbol) ;;
         all_articles <-
           (if response_truthy articles_response
            then (getitem_articles articles_response, [])
            else ret []) ;;
         match all_articles with
         | [] => ret (None, [])
         | _ =>
             sentiments <- article_sentiments all_articles ;;
             match sentiments with
             | [] => ret (None, [])
             | _ =>
                 ret (Some (np_mean sentiments),
                      map article_get_title all_articles)
             end
         end)
        except_handlers
  end.

Definition sample_news_content_event (ticker_symbol : string) : string :=
  String.append "
            "
 (String.append ticker_symbol
" announced strong Q1 earnings, beating analyst expectations on both revenue and profit,
            driven by robust advertising growth. However, the company also hinted at potential restructuring
            in its cloud division and faces an ongoing anti-trust lawsuit from the DOJ.
            Analysts remain bullish, but the legal issue adds uncertainty.
            ").

Definition insufficient_data (ticker_symbol : string) : string :=
  String.append "Could not retrieve sufficient data for "
    (String.append ticker_symbol ".
").

Definition analyze_stock_action (entry : string) : M unit :=
  let ticker_symbol := upper (strip entry) in
  if negb (truthy ticker_symbol) then
    tell (showwarning "Input Error" "Please enter a stock ticker symbol.")
  else
    tell clear_output ;;;
    tell (output_insert
            (String.append "Analyzing " (String.append ticker_symbol "...

"))) ;;;
    data <- call (call_get_stock_data ticker_symbol)
                 (get_stock_data ticker_symbol) ;;
    if truthy_opt (error data) then
      tell (output_insert
              (String.append "Error: "
                 (String.append (default EmptyString (error data)) "
")))
    else
      match historical_data data with
      | None => tell (output_insert (insufficient_data ticker_symbol))
      | Some hist =>
          if df_empty hist then
            tell (output_insert (insufficient_data ticker_symbol))
          else
            (format_price (current_price data), []) ;;;
            call call_calculate_technical_indicators tt ;;;
            newsapi <- _fetch_news_from_newsapi_for_gui ticker_symbol ;;
            let ticker_specific_rss_url :=
              BASE_GOOGLE_NEWS_RSS_URL_format ticker_symbol in
            rss <- call (call_fetch_rss ticker_specific_rss_url ticker_symbol)
                        (fetch_news_sentiment_from_rss
                           ticker_specific_rss_url ticker_symbol) ;;
            let v := desktop_aggregation newsapi rss unbound in
            call (call_analyze_stock (overall_news_sentiment v)) tt ;;;
            call (call_enhanced_analysis ticker_symbol
                    (overall_news_sentiment v) (combined_news_titles v)) tt ;;;
            (if truthy_opt DEEPSEEK_API_KEY
                && negb (bool_decide (combined_news_titles v = []))
             then call (call_summarize (combined_news_titles v)
                                       ticker_symbol) tt
             else ret tt) ;;;
            let text := sample_news_content_event ticker_symbol in
            call (call_extract_financial_events text) tt ;;;
            call_raising (call_analyze_sentiment text)
                         (analyze_sentiment text) ;;;
            call call_assess_impact tt ;;;
            call call_generate_signal tt
      end.

End Desktop.

(** ** The web dashboard *)

Section Web.

(** The built-ins [str.strip] and [str.upper]. *)
Variable strip : string -> string.
Variable upper : string -> string.

Variable H : Type.
Variable df_empty : H -> bool.
Variable get_stock_data : string -> stock_data H.
Variable talib : bool.
Variable APP_NEWS_API_KEY : option string.
Variable APP_GNEWS_API_KEY : option string.
Variable fetch_news_sentiment_from_newsapi : string -> sample title.
Variable fetch_news_sentiment_from_gnews : string -> sample title.
Variable analyze_sentiment : string -> outcome float64.

(** Lines 203 to 205. *)
Definition newsapi_sample (ticker_symbol_processed : string)
  : M (sample title) :=
  if truthy_opt APP_NEWS_API_KEY then
    call (call_fetch_newsapi ticker_symbol_processed)
         (fetch_news_sentiment_from_newsapi ticker_symbol_processed)
  else ret (None, []).

(** Lines 209 to 212. *)
Definition gnews_sample (ticker_symbol_processed : string)
  : M (sample title) :=
  if endswith ticker_symbol_processed ".NS" then
    if truthy_opt APP_GNEWS_API_KEY then
      call (call_fetch_gnews ticker_symbol_processed)
           (fetch_news_sentiment_from_gnews ticker_symbol_processed)
    else ret (None, [])
  else ret (None, []).

Definition sample_news_item (ticker_symbol_processed : string) : string :=
  String.append "
                    "
 (String.append ticker_symbol_processed
" reported mixed Q2 results. While revenue saw a slight increase,
                    net profit declined due to rising operational costs. The company announced a
                    new strategic partnership aimed at expanding into new markets and is also
                    exploring cost-cutting measures.
                    ").

(** [combined_news_titles[0] if combined_news_titles else None], replaced
    by the sample snippet when it is not truthy. *)
Definition news_item_for_event_analysis (ticker_symbol_processed : string)
           (titles : list title) : string :=
  match titles with
  | Some t :: _ =>
      if truthy t then t else sample_news_item ticker_symbol_processed
  | _ => sample_news_item ticker_symbol_processed
  end.

Definition analyze_stock_button (ticker_input_raw : string) : M unit :=
  if negb (truthy (strip ticker_input_raw)) then
    tell (st_warning "Please enter a stock ticker symbol.")
  else
    let ticker_symbol_processed := upper (strip ticker_input_raw) in
    tell (st_info (String.append "Analyzing "
                     (String.append ticker_symbol_processed "..."))) ;;;
    data <- call (call_get_stock_data ticker_symbol_processed)
                 (get_stock_data ticker_symbol_processed) ;;
    if truthy_opt (error data) then
      tell (st_error (String.append "Error fetching data: "
                        (default EmptyString (error data))))
    else
      let insufficient :=
        st_warning (String.append "Could not retrieve sufficient data for "
                      (String.append ticker_symbol_processed ".")) in
      match historical_data data with
      | None => tell insufficient
      | Some hist =>
          if df_empty hist then tell insufficient
          else
            call (call_create_chart price_volume_chart
                                    ticker_symbol_processed) tt ;;;
            (if talib then
               call (call_create_chart rsi_chart
                                       ticker_symbol_processed) tt ;;;
               call (call_create_chart macd_chart
                                       ticker_symbol_processed) tt
             else ret tt) ;;;
            call call_calculate_technical_indicators tt ;;;
            newsapi <- newsapi_sample ticker_symbol_processed ;;
            gnews <- gnews_sample ticker_symbol_processed ;;
            let v := web_aggregation newsapi gnews unbound in
            call (call_analyze_stock (overall_news_sentiment v)) tt ;;;
            call (call_enhanced_analysis ticker_symbol_processed
                    (overall_news_sentiment v) (combined_news_titles v)) tt ;;;
            let item :=
              news_item_for_event_analysis ticker_symbol_processed
                                           (combined_news_titles v) in
            if truthy item && truthy (strip item) then
              call (call_extract_financial_events item) tt ;;;
              call_raising (call_analyze_sentiment item)
                           (analyze_sentiment item) ;;;
              call call_assess_impact tt ;;;
              call call_generate_signal tt
            else ret tt
      end.

End Web.

(** The ticker a call is made with, for the calls that take one. *)
Definition event_ticker (e : event) : option string :=
  match e with
  | call_get_stock_data t => Some t
  | call_create_chart _ t => Some t
  | call_get_everything q => Some q
  | call_fetch_rss _ t => Some t
  | call_fetch_newsapi t => Some t
  | call_fetch_gnews t => Some t
  | call_enhanced_analysis t _ _ => Some t
  | call_summarize _ t => Some t
  | _ => None
  end.

(** A call to a collaborator, as opposed to a message. *)
Definition is_call (e : event) : bool :=
  match e with
  | showwarning _ _ | showerror _ _ | clear_output | output_insert _
  | st_info _ | st_warning _ | st_error _ => false
  | _ => true
  end.

(** ** The signal deriver *)

Section SignalDeriver.

Variable Signal : Type.

(** The table from impact level to signal that the recommendation engine
    owns, and the signal it designates as neutral. *)
Variable table : gmap string Signal.
Variable neutral_signal : Signal.

Record EventImpact : Type := Impact {
  events : gset string;
  short_term : string;
  long_term : option string
}.

(** Modelled from the spec: [generate_signal] belongs to the analysis
    script, which is not among the sources; the front ends only call it.
    It maps the [short_term] impact level through the table, and an
    impact level the table does not know to the neutral signal. *)
Definition generate_signal (impact : EventImpact) : outcome Signal :=
  match table !! short_term impact with
  | Some signal => Return signal
  | None => Return neutral_signal
  end.

End SignalDeriver.

(** ** What the wrapper scores and what it shows *)

(** [article.get('title') or article.get('description')] *)
Definition scorable (a : article) : bool :=
  field_truthy (article_title a) || field_truthy (article_description a).

(** The exceptions on which the first handler itself raises: the payload
    has no ['message']. *)
Definition handler_fails (e : exn) : bool :=
  match e with
  | NewsAPIException _ Missing => true
  | _ => false
  end.

(** The error box of the two handlers. *)
Definition error_box (e : exn) : event :=
  match e with
  | NewsAPIException _ (Value m) =>
      showerror "NewsAPI Error"
        (String.append "NewsAPI Error: " (if truthy m then m else "None"))
  | NewsAPIException _ _ =>
      showerror "NewsAPI Error" "NewsAPI Error: None"
  | _ =>
      showerror "NewsAPI Error"
        (String.append "An unexpected error occurred during NewsAPI fetch: "
           (exn_str e))
  end.

Definition is_showerror (e : event) : bool :=
  match e with showerror _ _ => true | _ => false end.

Definition is_get_everything (e : event) : bool :=
  match e with call_get_everything _ => true | _ => false end.

Definition is_scoring (e : event) : bool :=
  match e with call_analyze_sentiment _ => true | _ => false end.

(** ** Words for the runs of the front ends *)

(** Every character is one that [strip] removes. *)
Fixpoint blank (s : string) : bool :=
  match s with
  | EmptyString => true
  | String c rest => is_whitespace c && blank rest
  end.

(** The history a front end goes on with: there is no error message, and
    the frame is there and not empty. *)
Definition usable_history {H : Type} (df_empty : H -> bool)
           (data : stock_data H) : option H :=
  if truthy_opt (error data) then None
  else
    match historical_data data with
    | Some hist => if df_empty hist then None else Some hist
    | None => None
    end.

(** The events the wrapper can cause. *)
Definition is_wrapper_event (e : event) : bool :=
  is_get_everything e || is_scoring e || is_showerror e.

(** What either front end hands to the analysis. *)
Definition is_analysis (e : event) : bool :=
  match e with
  | call_analyze_stock _ | call_enhanced_analysis _ _ _
  | call_summarize _ _ => true
  | _ => false
  end.

Definition is_fetch (e : event) : bool :=
  match e with
  | call_fetch_newsapi _ | call_fetch_gnews _ | call_fetch_rss _ _
  | call_get_everything _ => true
  | _ => false
  end.

Definition is_extract (e : event) : bool :=
  match e with call_extract_financial_events _ => true | _ => false end.

(** How the wrapper ends once it has caught [e], after the events [t]. *)
Definition caught (e : exn) (t : list event) : M (sample title) :=
  if handler_fails e then (Raise (KeyError "message"), t)
  else (Return (None, []), t ++ [error_box e]).

(** ** The fetchers of the analysis script *)

(** Modelled from the spec: [fetch_news_sentiment_from_rss],
    [fetch_news_sentiment_from_newsapi] and [fetch_news_sentiment_from_gnews]
    belong to the analysis script, which is not among the sources; the
    front ends only call them. Sections 2 and 4.3 of the specification: a
    fetcher returns the sentiment of what its provider gave together with
    the titles, and [(None, [])] when the source is not configured, when
    the provider fails and when it gives nothing. *)
Definition fetch_news_sentiment (configured : bool)
           (provider : string -> outcome (list string))
           (sentiment_of : list string -> float64)
           (ticker : string) : sample string :=
  if configured then
    match provider ticker with
    | Return [] => (None, [])
    | Return titles => (Some (sentiment_of titles), titles)
    | Raise _ => (None, [])
    end
  else (None, []).

(** ** The desktop client, made when the module is loaded *)

Section ClientInit.

Variable NEWS_API_KEY : option string.

(** The class [NewsApiClient], [None] when the import failed; making a
    client may raise. *)
Variable NewsApiClient : option (string -> outcome (string -> outcome response)).

(** desktop_stock_app.py, lines 35 to 44. *)
Definition init_newsapi_client_gui : M (option (string -> outcome response)) :=
  match NEWS_API_KEY, NewsApiClient with
  | Some key, Some make =>
      if truthy key then
        try_except
          (client <- (make key, []) ;; ret (Some client))
          (fun e =>
             tell (showwarning "API Init Warning"
                     (String.append "NewsAPI client could not be initialized: "
                        (String.append (exn_str e)
                           ". News fetching will be skipped."))) ;;;
             ret None)
      else ret None
  | _, _ => ret None
  end.

(** The client the wrapper finds in [newsapi_client_gui]. *)
Definition loaded_client : option (string -> outcome response) :=
  match result init_newsapi_client_gui with
  | Return client => client
  | Raise _ => None
  end.

End ClientInit.

(** ** The titles that are listed *)

Section Listing.
Context {T : Type} {T_eq : EqDecision T} {T_countable : Countable T}.

(** The order in which Python iterates a set: some enumeration of it. *)
Variable set_order : gset T -> list T.

(** [for i, title in enumerate(list(set(combined_news_titles))[:5])], under
    [if overall_news_sentiment is not None]. *)
Definition listed_titles (v : vars) : list T :=
  match overall_news_sentiment v with
  | Some _ => take 5 (set_order (title_set v))
  | None => []
  end.

End Listing.

(** ** The charts of the dashboard *)

(** A row of the price history: its index entry and the columns read. *)
Record bar : Type := Bar {
  bar_date : string;
  bar_open : float64;
  bar_high : float64;
  bar_low : float64;
  bar_close : float64;
  bar_volume : float64
}.

(** Something added to a figure with [add_trace]. *)
Inductive plot : Type :=
| Candlestick (name : string) (x : list string)
              (opens highs lows closes : list float64)
| Scatter (name : string) (x : list string) (y : list float64)
| Bars (name : string) (x : list string) (y : list float64)
       (marker_color : list string).

Record figure : Type := Figure {
  fig_title : string;
  fig_data : list plot;
  fig_hlines : list Z
}.

Definition plot_name (p : plot) : string :=
  match p with
  | Candlestick name _ _ _ _ _ => name
  | Scatter name _ _ => name
  | Bars name _ _ _ => name
  end.

Definition plot_x (p : plot) : list string :=
  match p with
  | Candlestick _ x _ _ _ _ => x
  | Scatter _ x _ => x
  | Bars _ x _ _ => x
  end.

(** [val >= 0] on a float: false for NaN, true for either zero. *)
Definition ge_zero (val : float64) : bool :=
  match SFcompare val zero with
  | Some Eq | Some Gt => true
  | _ => false
  end.

(** The two functions of TA-Lib that are called; either may raise. *)
Record talib_module : Type := Talib {
  talib_RSI : list float64 -> nat -> outcome (list float64);
  talib_MACD : list float64 -> nat -> nat -> nat ->
               outcome (list float64 * list float64 * list float64)
}.

Section Charts.

(** [Series.rolling(window=n).mean()] of pandas. *)
Variable rolling_mean : nat -> list float64 -> list float64.

(** The module [talib], [None] when the import failed. *)
Variable talib : option talib_module.

(** [fig.add_trace(go.Scatter(... name='SMA n'))] under [len(df_hist) >= n]. *)
Definition sma_trace (df_hist : list bar) (n : nat) (name : string)
  : list plot :=
  if (n <=? length df_hist)%nat then
    [Scatter name (map bar_date df_hist)
             (rolling_mean n (map bar_close df_hist))]
  else [].

(** stock_app.py, lines 39 to 80. *)
Definition create_price_volume_chart (df_hist : option (list bar))
           (ticker : string) : option figure :=
  match df_hist with
  | None => None
  | Some [] => None
  | Some df_hist =>
      let index := map bar_date df_hist in
      Some (Figure
              (String.append ticker " Price, SMAs, and Volume")
              ([Candlestick "Price (OHLC)" index
                  (map bar_open df_hist) (map bar_high df_hist)
                  (map bar_low df_hist) (map bar_close df_hist)]
               ++ sma_trace df_hist 20 "SMA 20"
               ++ sma_trace df_hist 50 "SMA 50"
               ++ sma_trace df_hist 200 "SMA 200"
               ++ [Bars "Volume" index (map bar_volume df_hist) []])
              [])
  end.

(** stock_app.py, lines 82 to 97. *)
Definition create_rsi_chart (df_hist : option (list bar)) (ticker : string)
  : M (option figure) :=
  match talib, df_hist with
  | Some ta, Some df_hist =>
      if (length df_hist <? 14)%nat then ret None
      else
        try_except
          (rsi_series <- (talib_RSI ta (map bar_close df_hist) 14, []) ;;
           ret (Some (Figure
                        (String.append ticker " Relative Strength Index (RSI)")
                        [Scatter "RSI" (drop 13 (map bar_date df_hist))
                                 (drop 13 rsi_series)]
                        [70%Z; 30%Z])))
          (fun e =>
             tell (st_error (String.append "Error creating RSI chart: "
                               (exn_str e))) ;;;
             ret None)
  | _, _ => ret None
  end.

(** stock_app.py, lines 99 to 114. *)
Definition create_macd_chart (df_hist : option (list bar)) (ticker : string)
  : M (option figure) :=
  match talib, df_hist with
  | Some ta, Some df_hist =>
      if (length df_hist <? 35)%nat then ret None
      else
        try_except
          (series <- (talib_MACD ta (map bar_close df_hist) 12 26 9, []) ;;
           let '(macd, macdsignal, macdhist) := series in
           let index := drop 33 (map bar_date df_hist) in
           let colors :=
             map (fun val => if ge_zero val then "#26A69A" else "#EF5350")%string
                 (drop 33 macdhist) in
           ret (Some (Figure
                        (String.append ticker " MACD")
                        [Scatter "MACD Line" index (drop 33 macd);
                         Scatter "Signal Line" index (drop 33 macdsignal);
                         Bars "MACD Histogram" index (drop 33 macdhist) colors]
                        [])))
          (fun e =>
             tell (st_error (String.append "Error creating MACD chart: "
                               (exn_str e))) ;;;
             ret None)
  | _, _ => ret None
  end.

End Charts.

(** ** Collaborators to run the front ends on *)

Module Fixtures.

(** A scorer that gives every text the same sentiment. *)
Definition scorer (x : float64) (text : string) : outcome float64 :=
  Return x.

(** A client that answers every query the same way. *)
Definition client_of (r : outcome response)
  : option (string -> outcome response) :=
  Some (fun _ => r).

(** Market data that is there: one frame, not empty, no error. *)
Definition data_ok (ticker : string) : stock_data unit :=
  StockData (Some tt) (Some f0_5) None.

Definition not_empty (hist : unit) : bool := false.

Definition rss_url (ticker : string) : string :=
  String.append "https://news.google.com/rss/search?q=" ticker.

Definition no_rss (url ticker : string) : sample title := (None, []).

Definition newsapi_titles (ticker : string) : sample title :=
  (Some f0_2, [Some "Title A"; Some "Title A"]%string).

Definition gnews_titles (ticker : string) : sample title :=
  (Some f0_4, [Some "Title A"; Some "B"]%string).

End Fixtures.
Import Fixtures.

Module Fixtures2.

(** Market data with an error message, and a frame all the same. *)
Definition data_error (ticker : string) : stock_data unit :=
  StockData (Some tt) None
            (Some "No data found, symbol may be delisted"%string).

(** A frame and no error, but no current price. *)
Definition data_no_price (ticker : string) : stock_data unit :=
  StockData (Some tt) None None.

(** A client whose query raises with a payload that has no message. *)
Definition client_no_message : option (string -> outcome response) :=
  client_of (Raise (NewsAPIException "{'status': 'error'}" Missing)).

(** A client with the same title twice, and a feed with it once more. *)
Definition client_title_twice : option (string -> outcome response) :=
  client_of (Return (response_dict true (Value
     [Article (Value "Title A") Null; Article (Value "Title A") Null]))).

Definition rss_title_once (url ticker : string) : sample title :=
  (Some f0_4, [Some "Title A"%string]).

(** A client with one article about the ticker. *)
Definition one_article : option (string -> outcome response) :=
  client_of (Return (response_dict true (Value
     [Article (Value "AAPL beats earnings") Null]))).

(** A GNews sample whose first title is white space. *)
Definition gnews_blank_title (ticker : string) : sample title :=
  (Some f0_4, [Some "  "; Some "B"]%string).

End Fixtures2.
Import Fixtures2.

(** * Properties *)

(** ** The aggregation block *)

Section AggregationFacts.
Context {T : Type} {T_eq : EqDecision T} {T_countable : Countable T}.
Implicit Types (v : @vars T) (samples : list (sample T)) (src : sample T).

Lemma desktop_aggregation_aggregate (newsapi rss : sample T) v :
  desktop_aggregation newsapi rss v = aggregate Desktop [newsapi; rss] v.
Proof. reflexivity. Qed.

Lemma web_aggregation_aggregate (newsapi gnews : sample T) v :
  web_aggregation newsapi gnews v = aggregate Web [newsapi; gnews] v.
Proof. reflexivity. Qed.

Lemma collect_all_spec samples v :
  collect_all samples v =
  Vars (combined_sentiments v ++ scores samples)
       (combined_news_titles v ++ contributed_titles samples)
       (overall_news_sentiment v).
Proof.
  revert v. induction samples as [|[[s|] ts] samples IH]; intros v.
  - destruct v; simpl. by rewrite !app_nil_r.
  - unfold collect_all in *. simpl. rewrite IH. simpl.
    unfold scores. simpl. by rewrite <- !app_assoc.
  - unfold collect_all in *. simpl. rewrite IH. reflexivity.
Qed.

Lemma aggregate_spec fe samples v :
  aggregate fe samples v =
  Vars (scores samples)
       (match fe with
        | Desktop => contributed_titles samples
        | Web => unique_titles ∅ (contributed_titles samples)
        end)
       (mean_or_None (scores samples)).
Proof.
  unfold aggregate. rewrite collect_all_spec. simpl.
  destruct fe; simpl.
  - unfold average. simpl. by destruct (scores samples).
  - unfold dedup_titles. simpl.
    destruct (contributed_titles samples); unfold average; simpl;
      by destruct (scores samples).
Qed.

Lemma elem_of_unique_titles (titles : list T) (seen : gset T) (t : T) :
  t ∈ unique_titles seen titles ↔ t ∈ titles ∧ t ∉ seen.
Proof.
  revert seen. induction titles as [|x titles IH]; intros seen; simpl.
  - rewrite elem_of_nil. tauto.
  - destruct (decide (x ∈ seen)) as [Hx|Hx].
    + rewrite IH, elem_of_cons. split; [tauto|].
      intros [[->|?] ?]; tauto.
    + rewrite !elem_of_cons, IH, elem_of_union, elem_of_singleton.
      split.
      * intros [->|[? ?]]; tauto.
      * intros [[->|?] ?]; [tauto|].
        destruct (decide (t = x)) as [->|]; tauto.
Qed.

Lemma NoDup_unique_titles (titles : list T) (seen : gset T) :
  NoDup (unique_titles seen titles).
Proof.
  revert seen. induction titles as [|x titles IH]; intros seen; simpl.
  - constructor.
  - destruct (decide (x ∈ seen)); [apply IH|].
    constructor; [|apply IH].
    rewrite elem_of_unique_titles, elem_of_union, elem_of_singleton. tauto.
Qed.

Lemma elem_of_contributed_titles samples (t : T) :
  t ∈ contributed_titles samples ↔
  ∃ s titles, (Some s, titles) ∈ samples ∧ t ∈ titles.
Proof.
  unfold contributed_titles. rewrite list_elem_of_In, in_flat_map. split.
  - intros ([[s|] titles] & Hin & Ht); simpl in Ht.
    + exists s, titles. by rewrite !list_elem_of_In.
    + destruct Ht.
  - intros (s & titles & Hin & Ht). exists (Some s, titles).
    by rewrite <- !list_elem_of_In.
Qed.

Lemma scores_nil_iff samples :
  scores samples = [] ↔ Forall (λ src, fst src = None) samples.
Proof.
  unfold scores. induction samples as [|[[s|] titles] samples IH]; simpl.
  - split; [constructor|done].
  - split; [done|]. by inversion 1.
  - rewrite IH. split; [by constructor|]. by inversion 1.
Qed.

Lemma scores_app samples samples' :
  scores (samples ++ samples') = scores samples ++ scores samples'.
Proof. apply omap_app. Qed.

Lemma contributed_titles_app samples samples' :
  contributed_titles (samples ++ samples') =
  contributed_titles samples ++ contributed_titles samples'.
Proof. apply flat_map_app. Qed.

Lemma scores_without_titles samples :
  scores (map without_titles samples) = scores samples.
Proof.
  unfold scores. induction samples as [|[[s|] titles] samples IH]; simpl.
  - done.
  - by f_equal.
  - done.
Qed.

Lemma length_scores samples :
  length (scores samples) = length (List.filter contributing samples).
Proof.
  unfold scores. induction samples as [|[[s|] titles] samples IH]; simpl.
  - done.
  - by f_equal.
  - done.
Qed.

End AggregationFacts.

(** C1: the overall sentiment is [None] exactly when no sample has a
    sentiment, and otherwise it is [np.mean] of the sentiments that are not
    [None], one per sample whatever titles the sample carries, with nothing
    done to the quotient afterwards; no samples give [None] and no titles. *)
Theorem overall_sentiment_is_mean
  {T : Type} `{Countable T} (fe : front_end) (samples : list (sample T))
  (v : vars) :
  let r := aggregate fe samples v in
  (overall_news_sentiment r = None ↔ Forall (λ src, fst src = None) samples)
  ∧ overall_news_sentiment r =
      match scores samples with
      | [] => None
      | l => Some (div (np_sum l) (of_count (length l)))
      end
  ∧ length (scores samples) = length (List.filter contributing samples)
  ∧ overall_news_sentiment
      (aggregate fe (map without_titles samples) v) =
    overall_news_sentiment r
  ∧ aggregate fe [] v = Vars [] [] None
  ∧ title_set (aggregate fe [] v) = ∅.
Proof.
  intros r. subst r. rewrite !aggregate_spec, scores_without_titles.
  cbn [overall_news_sentiment].
  repeat split.
  - unfold mean_or_None. destruct (scores samples) eqn:E; [|done].
    intros _. by apply scores_nil_iff.
  - intros Hall. apply scores_nil_iff in Hall. by rewrite Hall.
  - unfold mean_or_None. by destruct (scores samples).
  - apply length_scores.
  - by destruct fe.
  - by destruct fe.
Qed.

(** C2: a sample whose sentiment is [None] is skipped, with its titles:
    the aggregation is what it is without that sample. The sentinel
    followed by [(0.8, ["x"])] gives 0.8 and the one title. *)
Theorem null_sample_is_skipped :
  (∀ (T : Type) `(Countable T) (fe : front_end)
     (before after : list (sample T)) (titles : list T) (v : vars),
      aggregate fe (before ++ (None, titles) :: after) v =
      aggregate fe (before ++ after) v)
  ∧ (∀ fe : front_end,
      aggregate fe [(None, []); (Some f0_8, ["x"%string])] unbound =
      Vars [f0_8] ["x"%string] (Some f0_8)).
Proof.
  split.
  - intros T ? ? fe before after titles v. rewrite !aggregate_spec.
    by rewrite !scores_app, !contributed_titles_app.
  - intros []; vm_compute; reflexivity.
Qed.

(** C3: the dashboard keeps the first copy of each title of a contributing
    sample (stock_app.py, lines 227 to 231), so its collection has every
    such title once. The desktop window has no such step: it takes the set
    of the titles only for the five it lists (line 141), and the titles it
    hands to [enhanced_analysis] (line 153) and to the summary are the list
    as collected. With "Title A" twice from NewsAPI and once from the feed,
    the dashboard keeps one copy and the desktop window hands over three. *)
Theorem desktop_titles_keep_repeats :
  (∀ (T : Type) `(Countable T) (samples : list (sample T)) (v : vars),
      let r := aggregate Web samples v in
      NoDup (combined_news_titles r)
      ∧ (∀ t, t ∈ combined_news_titles r ↔
              ∃ s titles, (Some s, titles) ∈ samples ∧ t ∈ titles))
  ∧ (let newsapi : sample string := (Some f0_2, ["Title A"; "Title A"]) in
     let other : sample string := (Some f0_4, ["Title A"]) in
     combined_news_titles (web_aggregation newsapi other unbound) =
     ["Title A"%string]
     ∧ combined_news_titles (desktop_aggregation newsapi other unbound) =
       ["Title A"; "Title A"; "Title A"]%string
     ∧ ¬ NoDup (combined_news_titles
                  (desktop_aggregation newsapi other unbound)))
  ∧ (let run :=
       analyze_stock_action PyStr.strip PyStr.upper unit not_empty data_ok
         client_title_twice (scorer f0_2) rss_url rss_title_once None
         "AAPL" in
     result run = Return tt
     ∧ List.filter is_analysis (trace run) =
       [call_analyze_stock (Some (S754_finite false 5404319552844596 (-54)));
        call_enhanced_analysis "AAPL"
          (Some (S754_finite false 5404319552844596 (-54)))
          [Some "Title A"; Some "Title A"; Some "Title A"]%string]).
Proof.
  split; [|split].
  - intros T ? ? samples v r. subst r. rewrite aggregate_spec. simpl.
    split; [apply NoDup_unique_titles|].
    intros t. rewrite elem_of_unique_titles, <- elem_of_contributed_titles.
    set_solver.
  - cbv zeta. split; [by vm_compute|]. split; [by vm_compute|].
    intros Hnd. change (NoDup ["Title A"; "Title A"; "Title A"]%string) in Hnd.
    apply NoDup_cons in Hnd as [Hin _]. apply Hin. apply elem_of_cons. by left.
  - cbv zeta. split; by vm_compute.
Qed.

(** C7: the aggregation reads none of the variables it finds: whatever an
    earlier run left in them, the same samples give the same variables, so
    a second run on the same samples ends as the first did. *)
Theorem aggregation_has_no_hidden_state
  {T : Type} `{Countable T} (fe : front_end) (samples : list (sample T))
  (newsapi other : sample T) (v v' : vars) :
  aggregate fe samples v = aggregate fe samples v'
  ∧ aggregate fe samples (aggregate fe samples v) = aggregate fe samples v
  ∧ title_set (aggregate fe samples (aggregate fe samples v)) =
    title_set (aggregate fe samples v)
  ∧ desktop_aggregation newsapi other (desktop_aggregation newsapi other v) =
    desktop_aggregation newsapi other v
  ∧ web_aggregation newsapi other (web_aggregation newsapi other v) =
    web_aggregation newsapi other v.
Proof.
  rewrite !desktop_aggregation_aggregate, !web_aggregation_aggregate.
  by rewrite !aggregate_spec.
Qed.

(** ** The summation *)

Lemma split_point (n : nat) :
  (128 < n)%nat →
  let n2 := (n / 2 - (n / 2) mod 8)%nat in (0 < n2 < n)%nat.
Proof.
  intros Hn n2. subst n2.
  pose proof (Nat.mod_upper_bound (n / 2) 8 ltac:(lia)).
  pose proof (Nat.Div0.div_lt_upper_bound n 2 n ltac:(lia)).
  assert (64 <= n / 2)%nat by (apply Nat.div_le_lower_bound; lia).
  lia.
Qed.

(** The recursion of [pairwise_sum] ends within the length of the array:
    any fuel from there on gives the same sum. *)
Lemma pairwise_sum_fuel (k k' : nat) (a : list float64) :
  (length a ≤ k)%nat → (length a ≤ k')%nat →
  pairwise_sum k a = pairwise_sum k' a.
Proof.
  revert k' a. induction k as [|k IH]; intros k' a Hk Hk'.
  - destruct a; [|simpl in Hk; lia]. by destruct k'.
  - destruct k' as [|k'].
    { destruct a; [|simpl in Hk'; lia]. reflexivity. }
    cbn [pairwise_sum].
    destruct (length a <? 8)%nat eqn:H8; [done|].
    destruct (length a <=? 128)%nat eqn:H128; [done|].
    apply Nat.leb_gt in H128.
    pose proof (split_point (length a) H128) as Hs. cbv zeta in Hs.
    f_equal; apply IH; rewrite ?length_take, ?length_drop; lia.
Qed.

(** ** Order of the samples *)

Lemma add_comm (x y : float64) : add x y = add y x.
Proof.
  destruct x as [[]|[]| |sx mx ex], y as [[]|[]| |sy my ey];
    try reflexivity.
  unfold add, SFadd. rewrite (Z.min_comm ey ex). f_equal. apply Z.add_comm.
Qed.

Lemma sequential_sum_swap (a b : float64) :
  sequential_sum [a; b] = sequential_sum [b; a].
Proof.
  destruct a as [[]|[]| |sa ma ea], b as [[]|[]| |sb mb eb];
    try reflexivity.
  apply (add_comm (S754_finite sa ma ea) (S754_finite sb mb eb)).
Qed.

Lemma np_mean_swap (a b : float64) : np_mean [a; b] = np_mean [b; a].
Proof.
  unfold np_mean, np_sum. simpl length.
  change (pairwise_sum 2 [a; b]) with (sequential_sum [a; b]).
  change (pairwise_sum 2 [b; a]) with (sequential_sum [b; a]).
  by rewrite sequential_sum_swap.
Qed.

Lemma mean_or_None_short (l l' : list float64) :
  l ≡ₚ l' → (length l ≤ 2)%nat → mean_or_None l = mean_or_None l'.
Proof.
  intros Hp Hlen.
  destruct l as [|a [|b [|c l]]]; simpl in Hlen; [| | |lia].
  - apply Permutation_nil in Hp. by subst.
  - apply Permutation_length_1_inv in Hp. by subst.
  - apply Permutation_length_2_inv in Hp as [->| ->]; [done|].
    unfold mean_or_None. f_equal. apply np_mean_swap.
Qed.

(** Samples taken in another order give the same overall sentiment when at
    most two of them have a sentiment. *)
Lemma overall_sentiment_order_of_two
  {T : Type} `{Countable T} (fe fe' : front_end)
  (samples samples' : list (sample T)) (v v' : vars) :
  samples ≡ₚ samples' →
  (length (scores samples) ≤ 2)%nat →
  overall_news_sentiment (aggregate fe samples v) =
  overall_news_sentiment (aggregate fe' samples' v').
Proof.
  intros Hp Hlen. rewrite !aggregate_spec. simpl.
  apply mean_or_None_short; [|done].
  unfold scores. by rewrite Hp.
Qed.

(** C6: the overall sentiment does not depend on the order of the samples.
    Either front end aggregates the samples of two sources (lines 124 to
    135 of the desktop window, 216 to 235 of the dashboard): with the two
    taken in the other order, and whatever the variables held before, the
    overall sentiment is the same float, bit for bit; so it is for every
    sequence of at most two samples and every permutation of it. *)
Theorem overall_sentiment_order_insensitive
  {T : Type} `{Countable T} (newsapi other : sample T) (v v' : vars) :
  overall_news_sentiment (desktop_aggregation other newsapi v') =
  overall_news_sentiment (desktop_aggregation newsapi other v)
  ∧ overall_news_sentiment (web_aggregation other newsapi v') =
    overall_news_sentiment (web_aggregation newsapi other v)
  ∧ (∀ (fe : front_end) (samples permuted : list (sample T)),
       (length samples ≤ 2)%nat →
       permuted ≡ₚ samples →
       overall_news_sentiment (aggregate fe permuted v') =
       overall_news_sentiment (aggregate fe samples v))
  ∧ (overall_news_sentiment
       (desktop_aggregation (Some f0_6, []) (Some f0_2, []) v) =
     Some (S754_finite false 7205759403792794 (-54))
     ∧ overall_news_sentiment
         (desktop_aggregation (Some f0_2, []) (Some f0_6, []) v) =
       Some (S754_finite false 7205759403792794 (-54))).
Proof.
  assert (∀ (fe : front_end) (samples permuted : list (sample T)),
            (length samples ≤ 2)%nat →
            permuted ≡ₚ samples →
            overall_news_sentiment (aggregate fe permuted v') =
            overall_news_sentiment (aggregate fe samples v)) as Hall.
  { intros fe samples permuted Hlen Hp.
    apply overall_sentiment_order_of_two; [done|].
    rewrite length_scores.
    etrans; [apply List.filter_length_le|]. by rewrite Hp. }
  split; [|split; [|split; [done|]]].
  - rewrite !desktop_aggregation_aggregate.
    apply Hall; [simpl; lia|apply perm_swap].
  - rewrite !web_aggregation_aggregate.
    apply Hall; [simpl; lia|apply perm_swap].
  - split; by vm_compute.
Qed.

(** The bound of two is where [np.mean] stops being symmetric: over three
    sentiments, which neither front end collects, 0.1, 0.2, 0.3 average
    to 0.20000000000000004 and 0.3, 0.2, 0.1 to 0.19999999999999998. *)
Lemma np_mean_order_of_three :
  let samples : list (sample string) :=
    [(Some f0_1, []); (Some f0_2, []); (Some f0_3, [])] in
  let samples' : list (sample string) :=
    [(Some f0_3, []); (Some f0_2, []); (Some f0_1, [])] in
  samples ≡ₚ samples'
  ∧ overall_news_sentiment (aggregate Desktop samples unbound) =
    Some (S754_finite false 7205759403792795 (-55))
  ∧ overall_news_sentiment (aggregate Desktop samples' unbound) =
    Some (S754_finite false 7205759403792793 (-55))
  ∧ overall_news_sentiment (aggregate Desktop samples unbound) ≠
    overall_news_sentiment (aggregate Desktop samples' unbound).
Proof.
  intros samples samples'. split; [|split; [|split]].
  - subst samples samples'.
    change [(Some f0_3, []); (Some f0_2, []); (Some f0_1, [])]
      with (reverse [(Some f0_1, @nil string); (Some f0_2, []); (Some f0_3, [])]).
    by rewrite reverse_Permutation.
  - by vm_compute.
  - by vm_compute.
  - vm_compute. discriminate.
Qed.

(** ** The NewsAPI fetch wrapper *)

Lemma except_handlers_spec (e : exn) : except_handlers e = caught e [].
Proof.
  unfold caught. destruct e as [text [| |m]| | |]; simpl; try reflexivity.
  by destruct (truthy m).
Qed.

Lemma try_except_caught (body : M (sample title)) (e : exn) :
  result body = Raise e →
  try_except body except_handlers = caught e (trace body).
Proof.
  destruct body as [[x|e'] t]; simpl; [done|]. intros [= ->].
  rewrite except_handlers_spec. unfold caught.
  destruct (handler_fails e); simpl; by rewrite ?app_nil_r.
Qed.

Lemma try_except_returned {A} (body : M A) (handler : exn -> M A) :
  (∃ a, result body = Return a) → try_except body handler = body.
Proof. destruct body as [[x|e'] t]; simpl; [done|]. by intros [? ?]. Qed.

Section WrapperFacts.
Variable analyze_sentiment : string -> outcome float64.

Let fetch client ticker :=
  _fetch_news_from_newsapi_for_gui client analyze_sentiment ticker.

Let scores_of (l : list article) : M (list float64) :=
  article_sentiments analyze_sentiment l.

(** The whole wrapper, result and events, by what the client answers. *)
Lemma fetch_run (c : string -> outcome response) (ticker : string) :
  fetch (Some c) ticker =
  match c ticker with
  | Raise e => caught e [call_get_everything ticker]
  | Return resp =>
      if response_truthy resp then
        match getitem_articles resp with
        | Raise e => caught e [call_get_everything ticker]
        | Return [] => (Return (None, []), [call_get_everything ticker])
        | Return l =>
            match scores_of l with
            | (Raise e, t) => caught e (call_get_everything ticker :: t)
            | (Return [], t) =>
                (Return (None, []), call_get_everything ticker :: t)
            | (Return ss, t) =>
                (Return (Some (np_mean ss), map article_get_title l),
                 call_get_everything ticker :: t)
            end
        end
      else (Return (None, []), [call_get_everything ticker])
  end.
Proof.
  unfold fetch, _fetch_news_from_newsapi_for_gui, scores_of.
  destruct (c ticker) as [resp|e]; simpl.
  2: { rewrite except_handlers_spec. unfold caught.
       by destruct (handler_fails e). }
  destruct (response_truthy resp); simpl; [|done].
  destruct (getitem_articles resp) as [l|e]; simpl.
  2: { rewrite except_handlers_spec. unfold caught.
       by destruct (handler_fails e). }
  destruct l as [|a l]; [done|].
  destruct (article_sentiments analyze_sentiment (a :: l)) as [[ss|e] t];
    simpl.
  - destruct ss; simpl; by rewrite ?app_nil_r.
  - rewrite except_handlers_spec. unfold caught.
    destruct (handler_fails e); simpl; by rewrite ?app_nil_r.
Qed.

(** The wrapper by cases on what the client and the scorer do. *)
Lemma fetch_cases client ticker :
  result (fetch client ticker) = Return (None, [])
  ∨ (∃ c resp l ss,
      client = Some c ∧ c ticker = Return resp
      ∧ response_truthy resp = true
      ∧ getitem_articles resp = Return l ∧ l ≠ []
      ∧ result (scores_of l) = Return ss
      ∧ ss ≠ []
      ∧ result (fetch client ticker) =
        Return (Some (np_mean ss), map article_get_title l))
  ∨ (∃ c e,
      client = Some c ∧ handler_fails e = true
      ∧ (c ticker = Raise e
         ∨ ∃ resp l, c ticker = Return resp
                     ∧ response_truthy resp = true
                     ∧ getitem_articles resp = Return l
                     ∧ result (scores_of l) = Raise e)
      ∧ result (fetch client ticker) = Raise (KeyError "message")).
Proof.
  destruct client as [c|]; [|by left]. rewrite fetch_run.
  destruct (c ticker) as [resp|e] eqn:Hc.
  2: { unfold caught. destruct (handler_fails e) eqn:He; [|by left].
       right. right. exists c, e. eauto. }
  destruct (response_truthy resp) eqn:Ht; [|by left].
  destruct (getitem_articles resp) as [[|a l]|e] eqn:Hg; [by left| |].
  2: { unfold caught. destruct (handler_fails e) eqn:He; [|by left].
       destruct resp as [|other [| |arts]]; simpl in Hg; by simplify_eq. }
  destruct (scores_of (a :: l)) as [[[|s ss]|e] t] eqn:Hs; [by left| |].
  - right. left. exists c, resp, (a :: l), (s :: ss). by rewrite Hs.
  - unfold caught. destruct (handler_fails e) eqn:He; [|by left].
    right. right. exists c, e. repeat split; try done.
    right. exists resp, (a :: l). by rewrite Hs.
Qed.

End WrapperFacts.

(** C4: the wrapper can let an exception out. When the client raises a
    [NewsAPIException] whose payload has no ['message'], [e.get_message()]
    raises [KeyError] inside the first handler, which the second handler
    does not cover: no box is shown and the wrapper ends in that
    [KeyError]. On everything else it returns. *)
Theorem newsapi_fetch_raises_without_message
  (analyze_sentiment : string -> outcome float64) (ticker text : string) :
  _fetch_news_from_newsapi_for_gui
    (Some (fun _ => Raise (NewsAPIException text Missing)))
    analyze_sentiment ticker =
  (Raise (KeyError "message"), [call_get_everything ticker])
  ∧ ∀ client,
      let r := result (_fetch_news_from_newsapi_for_gui
                         client analyze_sentiment ticker) in
      (∃ fetched, r = Return fetched) ∨ r = Raise (KeyError "message").
Proof.
  split; [reflexivity|]. intros client r. subst r.
  destruct (fetch_cases analyze_sentiment client ticker)
    as [Hs|[(c & resp & l & ss & _ & _ & _ & _ & _ & _ & _ & Hr)
           |(c & e & _ & _ & _ & Hr)]]; eauto.
Qed.

(** C5: whenever the wrapper returns, it returns a sentiment with its
    titles or [(None, [])], never [None] with titles; so do the fetchers of
    the analysis script as the specification has them; and the dashboard's
    two guarded fetches keep [(None, [])] when the key is not there. *)
Theorem fetched_pair_invariant :
  (∀ (client : option (string -> outcome response))
     (analyze_sentiment : string -> outcome float64) (ticker : string)
     (sentiment : option float64) (titles : list title),
      result (_fetch_news_from_newsapi_for_gui
                client analyze_sentiment ticker) =
      Return (sentiment, titles) →
      sentiment = None → titles = [])
  ∧ (∀ configured provider sentiment_of ticker,
      fst (fetch_news_sentiment configured provider sentiment_of ticker) =
      None →
      snd (fetch_news_sentiment configured provider sentiment_of ticker) = [])
  ∧ (∀ key fetcher ticker,
      truthy_opt key = false →
      newsapi_sample key fetcher ticker = ret (None, []))
  ∧ (∀ key fetcher ticker,
      truthy_opt key = false →
      gnews_sample key fetcher ticker = ret (None, [])).
Proof.
  split; [|split; [|split]].
  - intros client analyze_sentiment ticker sentiment titles Hr ->.
    destruct (fetch_cases analyze_sentiment client ticker)
      as [Hs|[(c & resp & l & ss & _ & _ & _ & _ & _ & _ & _ & Hs)
             |(c & e & _ & _ & _ & Hs)]];
      rewrite Hs in Hr; by simplify_eq.
  - intros configured provider sentiment_of ticker.
    unfold fetch_news_sentiment. destruct configured; [|done].
    by destruct (provider ticker) as [[|t titles]|e].
  - intros key fetcher ticker Hk. unfold newsapi_sample. by rewrite Hk.
  - intros key fetcher ticker Hk. unfold gnews_sample. rewrite Hk.
    by destruct (endswith ticker ".NS").
Qed.

(** *** The wrapper on four responses *)

Example fetch_two_articles :
  _fetch_news_from_newsapi_for_gui
    (client_of (Return (response_dict true (Value
       [Article (Value "AAPL beats earnings") Null;
        Article Null Null]))))
    (scorer f0_5) "AAPL" =
  (Return (Some f0_5, [Some "AAPL beats earnings"; None]),
   [call_get_everything "AAPL";
    call_analyze_sentiment "AAPL beats earnings "]).
Proof. by vm_compute. Qed.

Example fetch_null_title :
  _fetch_news_from_newsapi_for_gui
    (client_of (Return (response_dict true (Value
       [Article Null (Value "shares rise")]))))
    (scorer f0_5) "AAPL" =
  (Return (None, []),
   [call_get_everything "AAPL";
    showerror "NewsAPI Error"
      "An unexpected error occurred during NewsAPI fetch: unsupported operand type(s) for +: 'NoneType' and 'str'"]).
Proof. by vm_compute. Qed.

Example fetch_api_error :
  _fetch_news_from_newsapi_for_gui
    (client_of (Raise (NewsAPIException "{'status': 'error', 'message': 'rateLimited'}"
                         (Value "rateLimited"))))
    (scorer f0_5) "AAPL" =
  (Return (None, []),
   [call_get_everything "AAPL";
    showerror "NewsAPI Error" "NewsAPI Error: rateLimited"]).
Proof. by vm_compute. Qed.

Example fetch_api_error_empty_message :
  _fetch_news_from_newsapi_for_gui
    (client_of (Raise (NewsAPIException "{'status': 'error', 'message': ''}"
                         (Value EmptyString))))
    (scorer f0_5) "AAPL" =
  (Return (None, []),
   [call_get_everything "AAPL";
    showerror "NewsAPI Error" "NewsAPI Error: None"]).
Proof. by vm_compute. Qed.

(** ** The signal deriver *)

(** C8: [generate_signal] returns a signal for every impact, and the
    neutral one for an impact level the table does not know. *)
Theorem generate_signal_total
  (Signal : Type) (table : gmap string Signal) (neutral_signal : Signal)
  (impact : EventImpact) :
  (∃ signal, generate_signal Signal table neutral_signal impact = Return signal)
  ∧ (table !! short_term impact = None →
     generate_signal Signal table neutral_signal impact = Return neutral_signal)
  ∧ (∀ signal, table !! short_term impact = Some signal →
     generate_signal Signal table neutral_signal impact = Return signal).
Proof.
  unfold generate_signal.
  destruct (table !! short_term impact) as [signal|]; repeat split; eauto;
    congruence.
Qed.

(** ** Traces of the front ends *)

Section TraceFacts.
Variable P : event -> Prop.

Lemma trace_bind {A B} (m : M A) (k : A -> M B) :
  trace (bind m k) =
  trace m ++ match result m with
             | Return a => trace (k a)
             | Raise _ => []
             end.
Proof.
  destruct m as [[a|e] t]; simpl; [|by rewrite app_nil_r].
  by destruct (k a).
Qed.

Lemma all_bind {A B} (m : M A) (k : A -> M B) :
  Forall P (trace m) →
  (∀ a, result m = Return a → Forall P (trace (k a))) →
  Forall P (trace (bind m k)).
Proof.
  intros Hm Hk. rewrite trace_bind. apply Forall_app. split; [done|].
  destruct (result m) as [a|e]; [by apply Hk|constructor].
Qed.

Lemma all_ret {A} (a : A) : Forall P (trace (ret a)).
Proof. constructor. Qed.

Lemma all_tell (e : event) : P e → Forall P (trace (tell e)).
Proof. intros. by repeat constructor. Qed.

Lemma all_call {A} (e : event) (a : A) : P e → Forall P (trace (call e a)).
Proof. intros. by repeat constructor. Qed.

Lemma all_call_raising {A} (e : event) (r : outcome A) :
  P e → Forall P (trace (call_raising e r)).
Proof. intros. by repeat constructor. Qed.

Lemma all_lift {A} (r : outcome A) : Forall P (trace (r, [])).
Proof. constructor. Qed.

Lemma all_try_except {A} (body : M A) (handler : exn -> M A) :
  Forall P (trace body) →
  (∀ e, result body = Raise e → Forall P (trace (handler e))) →
  Forall P (trace (try_except body handler)).
Proof.
  intros Hb Hh. destruct body as [[a|e] t]; simpl in *; [done|].
  specialize (Hh e eq_refl). destruct (handler e) as [r t']. simpl in *.
  apply Forall_app. by split.
Qed.

End TraceFacts.

(** One step through a front end: the trace of a sequence, of a call, of a
    branch. *)
Ltac trace_step :=
  lazymatch goal with
  | |- Forall _ (trace (bind _ _)) => apply all_bind; [|intros ? ?]
  | |- Forall _ (trace (ret _)) => apply all_ret
  | |- Forall _ (trace (tell _)) => apply all_tell
  | |- Forall _ (trace (call _ _)) => apply all_call
  | |- Forall _ (trace (call_raising _ _)) => apply all_call_raising
  | |- Forall _ (trace (try_except _ _)) => apply all_try_except; [|intros ? ?]
  | |- Forall _ (trace (_, [])) => apply all_lift
  | |- Forall _ (trace (let _ := _ in _)) => cbv zeta
  | |- Forall _ (trace (match _ with _ => _ end)) => case_match
  end.

Section WrapperTrace.
Variable P : event -> Prop.
Variable analyze_sentiment : string -> outcome float64.
Hypothesis P_analyze : ∀ text, P (call_analyze_sentiment text).
Hypothesis P_showerror : ∀ caption message, P (showerror caption message).

Lemma all_article_sentiments (l : list article) :
  Forall P (trace (article_sentiments analyze_sentiment l)).
Proof.
  induction l as [|a l IH]; cbn [article_sentiments];
    repeat trace_step; auto.
Qed.

Lemma all_except_handlers (e : exn) : Forall P (trace (except_handlers e)).
Proof.
  rewrite except_handlers_spec. unfold caught.
  destruct (handler_fails e); simpl; [constructor|].
  apply Forall_cons. split; [|constructor].
  destruct e as [text [| |m]| | |]; apply P_showerror.
Qed.

Lemma all_fetch client ticker :
  P (call_get_everything ticker) →
  Forall P (trace (_fetch_news_from_newsapi_for_gui
                     client analyze_sentiment ticker)).
Proof.
  intros Hq. unfold _fetch_news_from_newsapi_for_gui.
  repeat trace_step;
    auto using all_article_sentiments, all_except_handlers.
Qed.

End WrapperTrace.

Lemma elem_of_trace_bind_l {A B} (m : M A) (k : A -> M B) (e : event) :
  e ∈ trace m → e ∈ trace (bind m k).
Proof. rewrite trace_bind, elem_of_app. auto. Qed.

Lemma elem_of_trace_bind_r {A B} (m : M A) (k : A -> M B) (a : A) (e : event) :
  result m = Return a → e ∈ trace (k a) → e ∈ trace (bind m k).
Proof. intros Hm. rewrite trace_bind, elem_of_app, Hm. auto. Qed.

(** ** The ticker *)

Lemma truthy_upper (s : string) : truthy (upper s) = truthy s.
Proof. by destruct s. Qed.

Lemma truthy_false (s : string) : truthy s = false ↔ s = EmptyString.
Proof. by destruct s. Qed.

Section DesktopFacts.
Variable strip : string -> string.
Variable upper : string -> string.

(** [str.upper] gives the empty string for the empty string only. *)
Hypothesis upper_empty : ∀ s, upper s = EmptyString ↔ s = EmptyString.

Variable H : Type.
Variable df_empty : H -> bool.
Variable get_stock_data : string -> stock_data H.
Variable newsapi_client_gui : option (string -> outcome response).
Variable analyze_sentiment : string -> outcome float64.
Variable BASE_GOOGLE_NEWS_RSS_URL_format : string -> string.
Variable fetch_news_sentiment_from_rss : string -> string -> sample title.
Variable DEEPSEEK_API_KEY : option string.

Let run (entry : string) : M unit :=
  analyze_stock_action strip upper H df_empty get_stock_data newsapi_client_gui
    analyze_sentiment BASE_GOOGLE_NEWS_RSS_URL_format
    fetch_news_sentiment_from_rss DEEPSEEK_API_KEY entry.

Lemma desktop_blank (entry : string) :
  strip entry = EmptyString →
  run entry =
  (Return tt,
   [showwarning "Input Error" "Please enter a stock ticker symbol."]).
Proof.
  intros Hb. unfold run, analyze_stock_action. rewrite Hb.
  by rewrite (proj2 (upper_empty EmptyString) eq_refl).
Qed.

Lemma desktop_runs (entry : string) :
  strip entry ≠ EmptyString →
  trace (run entry) !! 2%nat =
  Some (call_get_stock_data (upper (strip entry))).
Proof.
  intros Hb. unfold run, analyze_stock_action.
  destruct (truthy (upper (strip entry))) eqn:Ht.
  - cbn [negb]. rewrite !trace_bind. reflexivity.
  - apply truthy_false in Ht. by apply (proj1 (upper_empty _)) in Ht.
Qed.

Lemma desktop_all (entry : string) :
  Forall (λ e, (is_call e = true → strip entry ≠ EmptyString)
               ∧ ∀ t, event_ticker e = Some t → t = upper (strip entry))
         (trace (run entry)).
Proof.
  unfold run, analyze_stock_action.
  destruct (truthy (upper (strip entry))) eqn:Ht; cbn [negb].
  - assert (strip entry ≠ EmptyString) as Hne.
    { intros Hb. rewrite Hb in Ht.
      by rewrite (proj2 (upper_empty EmptyString) eq_refl) in Ht. }
    repeat trace_step;
      try (apply all_fetch; intros);
      try (split; simpl; intros; congruence).
  - apply all_tell. split; simpl; intros; congruence.
Qed.

End DesktopFacts.

Lemma truthy_opt_true (o : option string) :
  truthy_opt o = true ↔ ∃ s, o = Some s ∧ s ≠ EmptyString.
Proof.
  destruct o as [[|c s]|]; simpl; split; try done.
  - by intros (s & [= <-] & ?).
  - intros _. by eexists.
  - by intros (s & ? & ?).
Qed.

Section WebFacts.
Variable strip : string -> string.
Variable upper : string -> string.
Variable H : Type.
Variable df_empty : H -> bool.
Variable get_stock_data : string -> stock_data H.
Variable talib : bool.
Variable APP_NEWS_API_KEY : option string.
Variable APP_GNEWS_API_KEY : option string.
Variable fetch_news_sentiment_from_newsapi : string -> sample title.
Variable fetch_news_sentiment_from_gnews : string -> sample title.
Variable analyze_sentiment : string -> outcome float64.

Let run (ticker_input_raw : string) : M unit :=
  analyze_stock_button strip upper H df_empty get_stock_data talib APP_NEWS_API_KEY
    APP_GNEWS_API_KEY fetch_news_sentiment_from_newsapi
    fetch_news_sentiment_from_gnews analyze_sentiment ticker_input_raw.

Lemma web_blank (ticker_input_raw : string) :
  strip ticker_input_raw = EmptyString →
  run ticker_input_raw =
  (Return tt, [st_warning "Please enter a stock ticker symbol."]).
Proof.
  intros Hb. unfold run, analyze_stock_button. by rewrite Hb.
Qed.

Lemma web_runs (ticker_input_raw : string) :
  strip ticker_input_raw ≠ EmptyString →
  trace (run ticker_input_raw) !! 1%nat =
  Some (call_get_stock_data (upper (strip ticker_input_raw))).
Proof.
  intros Hb. unfold run, analyze_stock_button.
  destruct (truthy (strip ticker_input_raw)) eqn:Ht.
  - cbn [negb]. rewrite !trace_bind. reflexivity.
  - by apply truthy_false in Ht.
Qed.

Lemma web_all (ticker_input_raw : string) :
  Forall (λ e, (is_call e = true → strip ticker_input_raw ≠ EmptyString)
               ∧ ∀ t, event_ticker e = Some t →
                      t = upper (strip ticker_input_raw))
         (trace (run ticker_input_raw)).
Proof.
  unfold run, analyze_stock_button, newsapi_sample, gnews_sample.
  destruct (truthy (strip ticker_input_raw)) eqn:Ht; cbn [negb].
  - assert (strip ticker_input_raw ≠ EmptyString) as Hne.
    { intros Hb. rewrite Hb in Ht. done. }
    repeat trace_step; try (split; simpl; intros; congruence).
  - apply all_tell. split; simpl; intros; congruence.
Qed.

Lemma web_guards (ticker_input_raw : string) :
  Forall (λ e,
            (∀ t, e = call_fetch_gnews t →
                  t = upper (strip ticker_input_raw)
                  ∧ endswith t ".NS" = true
                  ∧ truthy_opt APP_GNEWS_API_KEY = true)
            ∧ (∀ t, e = call_fetch_newsapi t →
                    t = upper (strip ticker_input_raw)
                    ∧ truthy_opt APP_NEWS_API_KEY = true))
         (trace (run ticker_input_raw)).
Proof.
  unfold run, analyze_stock_button, newsapi_sample, gnews_sample.
  repeat trace_step;
    try (split; intros t' [= <-]; auto);
    try (split; intros; discriminate).
Qed.

End WebFacts.

(** C9: in a run of the dashboard the GNews fetcher is called only with a
    ticker that ends in [.NS] and with [GNEWS_API_KEY] set, the NewsAPI
    fetcher only with [NEWS_API_KEY] set; otherwise the sample stays
    [(None, [])], and such a sample adds nothing to the aggregation. *)
Theorem gnews_and_newsapi_are_guarded
  (strip upper : string -> string)
  (H : Type) (df_empty : H -> bool) (get_stock_data : string -> stock_data H)
  (talib : bool) (APP_NEWS_API_KEY APP_GNEWS_API_KEY : option string)
  (fetch_news_sentiment_from_newsapi : string -> sample title)
  (fetch_news_sentiment_from_gnews : string -> sample title)
  (analyze_sentiment : string -> outcome float64)
  (ticker_input_raw : string) :
  let ticker := upper (strip ticker_input_raw) in
  let run :=
    analyze_stock_button strip upper H df_empty get_stock_data talib APP_NEWS_API_KEY
      APP_GNEWS_API_KEY fetch_news_sentiment_from_newsapi
      fetch_news_sentiment_from_gnews analyze_sentiment ticker_input_raw in
  (∀ t, call_fetch_gnews t ∈ trace run →
        t = ticker ∧ endswith ticker ".NS" = true
        ∧ ∃ key, APP_GNEWS_API_KEY = Some key ∧ key ≠ EmptyString)
  ∧ (∀ t, call_fetch_newsapi t ∈ trace run →
          t = ticker ∧ ∃ key, APP_NEWS_API_KEY = Some key ∧ key ≠ EmptyString)
  ∧ (endswith ticker ".NS" = false ∨ APP_GNEWS_API_KEY = None →
     gnews_sample APP_GNEWS_API_KEY fetch_news_sentiment_from_gnews ticker =
     ret (None, []))
  ∧ (APP_NEWS_API_KEY = None →
     newsapi_sample APP_NEWS_API_KEY fetch_news_sentiment_from_newsapi ticker =
     ret (None, []))
  ∧ (∀ (newsapi : sample title) (v : vars),
       web_aggregation newsapi (None, []) v = aggregate Web [newsapi] v).
Proof.
  intros ticker run.
  pose proof (web_guards strip upper H df_empty get_stock_data talib APP_NEWS_API_KEY
                APP_GNEWS_API_KEY fetch_news_sentiment_from_newsapi
                fetch_news_sentiment_from_gnews analyze_sentiment
                ticker_input_raw) as Hall.
  rewrite Forall_forall in Hall.
  split; [|split; [|split; [|split]]].
  - intros t Hin. destruct (Hall _ Hin) as [Hg _].
    destruct (Hg t eq_refl) as (-> & He & Hk).
    by rewrite <- truthy_opt_true.
  - intros t Hin. destruct (Hall _ Hin) as [_ Hn].
    destruct (Hn t eq_refl) as (-> & Hk).
    by rewrite <- truthy_opt_true.
  - unfold gnews_sample. intros [-> | ->]; [done|].
    by destruct (endswith ticker ".NS").
  - intros ->. reflexivity.
  - intros newsapi v. rewrite web_aggregation_aggregate, !aggregate_spec.
    unfold scores, contributed_titles. simpl. by rewrite !app_nil_r.
Qed.

(** C10: either front end, on an entry that is blank once stripped, shows
    its warning and does nothing else; on any other entry it goes on to
    fetch the market data, and every call that takes a ticker takes the
    entry stripped and in upper case. [strip] and [upper] are the built-ins
    of Python, on every string; all that is used of them is that [upper]
    gives the empty string for the empty string only. *)
Theorem ticker_is_stripped_and_uppercased
  (strip upper : string -> string)
  (H : Type) (df_empty : H -> bool) (get_stock_data : string -> stock_data H)
  (newsapi_client_gui : option (string -> outcome response))
  (analyze_sentiment : string -> outcome float64)
  (BASE_GOOGLE_NEWS_RSS_URL_format : string -> string)
  (fetch_news_sentiment_from_rss : string -> string -> sample title)
  (DEEPSEEK_API_KEY : option string)
  (talib : bool) (APP_NEWS_API_KEY APP_GNEWS_API_KEY : option string)
  (fetch_news_sentiment_from_newsapi : string -> sample title)
  (fetch_news_sentiment_from_gnews : string -> sample title)
  (entry : string) :
  (∀ s, upper s = EmptyString ↔ s = EmptyString) →
  let ticker := upper (strip entry) in
  let desktop :=
    analyze_stock_action strip upper H df_empty get_stock_data newsapi_client_gui
      analyze_sentiment BASE_GOOGLE_NEWS_RSS_URL_format
      fetch_news_sentiment_from_rss DEEPSEEK_API_KEY entry in
  let web :=
    analyze_stock_button strip upper H df_empty get_stock_data talib APP_NEWS_API_KEY
      APP_GNEWS_API_KEY fetch_news_sentiment_from_newsapi
      fetch_news_sentiment_from_gnews analyze_sentiment entry in
  (strip entry = EmptyString →
     desktop =
     (Return tt,
      [showwarning "Input Error" "Please enter a stock ticker symbol."])
     ∧ web = (Return tt, [st_warning "Please enter a stock ticker symbol."]))
  ∧ (strip entry ≠ EmptyString →
     trace desktop !! 2%nat = Some (call_get_stock_data ticker)
     ∧ trace web !! 1%nat = Some (call_get_stock_data ticker))
  ∧ (∀ e, e ∈ trace desktop ∨ e ∈ trace web →
          (is_call e = true → strip entry ≠ EmptyString)
          ∧ (∀ t, event_ticker e = Some t → t = ticker)).
Proof.
  intros Hupper ticker desktop web. split; [|split].
  - intros Hb. split; [by apply desktop_blank|by apply web_blank].
  - intros Hb. split; [by apply desktop_runs|by apply web_runs].
  - intros e [Hin|Hin].
    + pose proof (desktop_all strip upper Hupper H df_empty get_stock_data newsapi_client_gui
                    analyze_sentiment BASE_GOOGLE_NEWS_RSS_URL_format
                    fetch_news_sentiment_from_rss DEEPSEEK_API_KEY entry)
        as Hall.
      rewrite Forall_forall in Hall. by apply Hall.
    + pose proof (web_all strip upper H df_empty get_stock_data talib APP_NEWS_API_KEY
                    APP_GNEWS_API_KEY fetch_news_sentiment_from_newsapi
                    fetch_news_sentiment_from_gnews analyze_sentiment entry)
        as Hall.
      rewrite Forall_forall in Hall. by apply Hall.
Qed.

(** ** The front ends on sample entries *)

Example strip_upper_endswith :
  upper (strip "  reliance.ns ") = "RELIANCE.NS"%string
  ∧ endswith "RELIANCE.NS" ".NS" = true
  ∧ endswith "AAPL" ".NS" = false
  ∧ strip (String (ascii_of_nat 9) (String (ascii_of_nat 10) " ")) =
    EmptyString.
Proof. by vm_compute. Qed.

(** One source gives [(0.6, ["AAPL beats earnings"])], the other
    [(None, [])]: the analysis is called with 0.6 and the one title. *)
Example desktop_run_AAPL :
  trace (analyze_stock_action strip upper unit not_empty data_ok
           (client_of (Return (response_dict true (Value
              [Article (Value "AAPL beats earnings") Null]))))
           (scorer f0_6) rss_url no_rss None " aapl ") =
  [clear_output;
   output_insert (String.append "Analyzing AAPL..."
                    (String (ascii_of_nat 10) (String (ascii_of_nat 10) "")));
   call_get_stock_data "AAPL";
   call_calculate_technical_indicators;
   call_get_everything "AAPL";
   call_analyze_sentiment "AAPL beats earnings ";
   call_fetch_rss "https://news.google.com/rss/search?q=AAPL" "AAPL";
   call_analyze_stock (Some f0_6);
   call_enhanced_analysis "AAPL" (Some f0_6) [Some "AAPL beats earnings"%string];
   call_extract_financial_events (sample_news_content_event "AAPL");
   call_analyze_sentiment (sample_news_content_event "AAPL");
   call_assess_impact;
   call_generate_signal].
Proof. by vm_compute. Qed.

Example web_run_RELIANCE :
  trace (analyze_stock_button strip upper unit not_empty data_ok true (Some "k"%string)
           (Some "g"%string) newsapi_titles gnews_titles (scorer f0_6)
           "reliance.ns") =
  [st_info "Analyzing RELIANCE.NS...";
   call_get_stock_data "RELIANCE.NS";
   call_create_chart price_volume_chart "RELIANCE.NS";
   call_create_chart rsi_chart "RELIANCE.NS";
   call_create_chart macd_chart "RELIANCE.NS";
   call_calculate_technical_indicators;
   call_fetch_newsapi "RELIANCE.NS";
   call_fetch_gnews "RELIANCE.NS";
   call_analyze_stock (Some (S754_finite false 5404319552844596 (-54)));
   call_enhanced_analysis "RELIANCE.NS"
     (Some (S754_finite false 5404319552844596 (-54)))
     [Some "Title A"; Some "B"]%string;
   call_extract_financial_events "Title A";
   call_analyze_sentiment "Title A";
   call_assess_impact;
   call_generate_signal].
Proof. by vm_compute. Qed.

Example web_run_GOOG_without_keys :
  trace (analyze_stock_button strip upper unit not_empty data_ok false None
           (Some "g"%string) newsapi_titles gnews_titles (scorer f0_6)
           "goog") =
  [st_info "Analyzing GOOG...";
   call_get_stock_data "GOOG";
   call_create_chart price_volume_chart "GOOG";
   call_calculate_technical_indicators;
   call_analyze_stock None;
   call_enhanced_analysis "GOOG" None [];
   call_extract_financial_events (sample_news_item "GOOG");
   call_analyze_sentiment (sample_news_item "GOOG");
   call_assess_impact;
   call_generate_signal].
Proof. by vm_compute. Qed.

(** The mean of 0.5 and -0.5 is 0.0, with both titles. *)
Example aggregate_two :
  aggregate Web [(Some f0_5, ["a"%string]); (Some fm0_5, ["b"%string])] unbound =
  Vars [f0_5; fm0_5] ["a"; "b"]%string (Some zero).
Proof. by vm_compute. Qed.

(** * Further properties *)

(** ** The wrapper, step by step *)

Section WrapperRun.
Variable analyze_sentiment : string -> outcome float64.

Let scores_of (l : list article) : M (list float64) :=
  article_sentiments analyze_sentiment l.

(** Scoring calls the scorer and nothing else. *)
Lemma scoring_events (l : list article) :
  Forall (λ e, is_scoring e = true) (trace (scores_of l)).
Proof. by apply all_article_sentiments. Qed.

(** One score per article with a title or a description. *)
Lemma scoring_length (l : list article) (ss : list float64) :
  result (scores_of l) = Return ss →
  length ss = length (List.filter scorable l).
Proof.
  unfold scores_of. revert ss.
  induction l as [|a l IH]; intros ss; cbn [article_sentiments List.filter].
  - by intros [= <-].
  - fold (scorable a). destruct (scorable a); [|apply IH].
    destruct (article_text a) as [text|e]; simpl; [|done].
    destruct (analyze_sentiment text) as [s|e]; simpl; [|done].
    destruct (article_sentiments analyze_sentiment l) as [[ss'|e] t];
      simpl; [|done].
    intros [= <-]. simpl. f_equal. by apply IH.
Qed.

(** An article with a description and [null] for a title stops the scoring. *)
Lemma scoring_null_title (l : list article) (a : article) :
  a ∈ l → article_title a = Null →
  field_truthy (article_description a) = true →
  ∃ e, result (scores_of l) = Raise e.
Proof.
  unfold scores_of. intros Hin Hnull Hdesc.
  induction l as [|b l IH]; [by apply elem_of_nil in Hin|].
  cbn [article_sentiments]. apply elem_of_cons in Hin as [<-|Hin].
  - rewrite Hdesc, orb_true_r. unfold article_text. rewrite Hnull.
    simpl. eauto.
  - destruct (IH Hin) as [e He].
    destruct (field_truthy (article_title b)
              || field_truthy (article_description b)); [|eauto].
    destruct (article_text b) as [text|e']; simpl; [|eauto].
    destruct (analyze_sentiment text) as [s|e']; simpl; [|eauto].
    destruct (article_sentiments analyze_sentiment l) as [[ss|e''] t];
      simpl in *; [done|eauto].
Qed.

(** Scoring raises what the scorer raised, or the [TypeError] of a [null]
    title. *)
Lemma scoring_handled (l : list article) (e : exn) :
  (∀ text e', analyze_sentiment text = Raise e' → handler_fails e' = false) →
  result (scores_of l) = Raise e → handler_fails e = false.
Proof.
  unfold scores_of. intros Hscorer.
  induction l as [|a l IH]; cbn [article_sentiments]; [done|].
  destruct (field_truthy (article_title a)
            || field_truthy (article_description a)); [|done].
  unfold article_text. destruct (article_title a); simpl;
    try (intros [= <-]; reflexivity).
  all: match goal with
       | |- context [analyze_sentiment ?text] =>
           destruct (analyze_sentiment text) as [s|e'] eqn:Hs; simpl;
           [|intros [= <-]; by eapply Hscorer]
       end.
  all: destruct (article_sentiments analyze_sentiment l) as [[ss|e''] t];
    simpl in *; [done|]; intros [= <-]; by apply IH.
Qed.

End WrapperRun.

Lemma is_showerror_error_box (e : exn) : is_showerror (error_box e) = true.
Proof. by destruct e as [text [| |m]| | |]. Qed.

Lemma caught_result (e : exn) (t : list event) :
  result (caught e t) =
  if handler_fails e then Raise (KeyError "message") else Return (None, []).
Proof. unfold caught. by destruct (handler_fails e). Qed.

Lemma caught_trace (e : exn) (t : list event) :
  trace (caught e t) = if handler_fails e then t else t ++ [error_box e].
Proof. unfold caught. by destruct (handler_fails e). Qed.

Lemma scoring_no_showerror (analyze_sentiment : string -> outcome float64)
      (l : list article) :
  ¬ Exists (λ e, is_showerror e = true)
           (trace (article_sentiments analyze_sentiment l)).
Proof.
  intros Hex. apply Exists_exists in Hex as (e & Hin & He).
  pose proof (scoring_events analyze_sentiment l) as Hall.
  rewrite Forall_forall in Hall. specialize (Hall e Hin).
  by destruct e.
Qed.

(** X1: when the wrapper returns a sentiment, the client answered with a
    list of articles, the titles are one per article in the order of the
    response, also for the articles that were not scored, and the sentiment
    is the mean of one score per article with a title or a description. *)
Theorem fetch_success_shape
  (client : option (string -> outcome response))
  (analyze_sentiment : string -> outcome float64) (ticker : string)
  (s : float64) (titles : list title) :
  result (_fetch_news_from_newsapi_for_gui client analyze_sentiment ticker) =
  Return (Some s, titles) →
  ∃ c resp l ss,
    client = Some c ∧ c ticker = Return resp
    ∧ getitem_articles resp = Return l
    ∧ result (article_sentiments analyze_sentiment l) = Return ss
    ∧ s = np_mean ss
    ∧ titles = map article_get_title l
    ∧ length titles = length l
    ∧ length ss = length (List.filter scorable l)
    ∧ (0 < length ss ≤ length l)%nat.
Proof.
  assert (∀ e t, result (caught e t) ≠ Return (Some s, titles)) as Hcaught.
  { intros e t. rewrite caught_result. by destruct (handler_fails e). }
  destruct client as [c|]; [|done]. rewrite fetch_run.
  destruct (c ticker) as [resp|e] eqn:Hc; [|by intros ?%Hcaught].
  destruct (response_truthy resp); [|done].
  destruct (getitem_articles resp) as [[|a l]|e] eqn:Hg;
    [done| |by intros ?%Hcaught].
  destruct (article_sentiments analyze_sentiment (a :: l))
    as [[[|s0 ss]|e] t] eqn:Hs; [done| |by intros ?%Hcaught].
  intros [= <- <-]. exists c, resp, (a :: l), (s0 :: ss).
  assert (result (article_sentiments analyze_sentiment (a :: l)) =
          Return (s0 :: ss)) as Hr by by rewrite Hs.
  pose proof (scoring_length analyze_sentiment _ _ Hr) as Hlen.
  repeat split; try done.
  - simpl. by rewrite length_map.
  - simpl. lia.
  - rewrite Hlen. apply List.filter_length_le.
Qed.

Lemma fetch_success_shape_witness :
  ∃ c resp l ss,
    client_of (Return (response_dict true (Value
       [Article (Value "AAPL beats earnings") Null; Article Null Null]))) =
    Some c
    ∧ c "AAPL"%string = Return resp
    ∧ getitem_articles resp = Return l
    ∧ result (article_sentiments (scorer f0_5) l) = Return ss
    ∧ f0_5 = np_mean ss
    ∧ [Some "AAPL beats earnings"%string; None] = map article_get_title l
    ∧ length [Some "AAPL beats earnings"%string; None] = length l
    ∧ length ss = length (List.filter scorable l)
    ∧ (0 < length ss ≤ length l)%nat.
Proof.
  apply (fetch_success_shape
           (client_of (Return (response_dict true (Value
              [Article (Value "AAPL beats earnings") Null;
               Article Null Null]))))
           (scorer f0_5) "AAPL" f0_5
           [Some "AAPL beats earnings"%string; None]).
  vm_compute. reflexivity.
Defined.

(** X2: one article that has a description and [null] for its title makes
    the wrapper give up the whole response: it returns [(None, [])] and
    shows an error box, whatever the other articles are. The scorer is
    taken not to raise a [NewsAPIException] without a message, the one
    exception the handlers do not survive. *)
Theorem fetch_null_title_discards
  (c : string -> outcome response)
  (analyze_sentiment : string -> outcome float64) (ticker : string)
  (resp : response) (l : list article) (a : article) :
  (∀ text e, analyze_sentiment text = Raise e → handler_fails e = false) →
  c ticker = Return resp →
  response_truthy resp = true →
  getitem_articles resp = Return l →
  a ∈ l →
  article_title a = Null →
  field_truthy (article_description a) = true →
  let run := _fetch_news_from_newsapi_for_gui (Some c) analyze_sentiment ticker in
  result run = Return (None, [])
  ∧ Exists (λ e, is_showerror e = true) (trace run).
Proof.
  intros Hscorer Hc Ht Hg Hin Hnull Hdesc run. subst run.
  rewrite fetch_run, Hc, Ht, Hg.
  destruct (scoring_null_title analyze_sentiment l a Hin Hnull Hdesc)
    as [e He].
  pose proof (scoring_handled analyze_sentiment l e Hscorer He) as Hok.
  destruct l as [|b l]; [by apply elem_of_nil in Hin|].
  destruct (article_sentiments analyze_sentiment (b :: l)) as [[ss|e'] t];
    [done|]. simpl in He. injection He as ->.
  rewrite caught_result, caught_trace, Hok.
  split; [done|]. apply Exists_app. right.
  apply Exists_cons_hd, is_showerror_error_box.
Qed.

Lemma fetch_null_title_discards_witness :
  let c : string -> outcome response :=
    fun _ => Return (response_dict true (Value
               [Article (Value "AAPL beats earnings") Null;
                Article Null (Value "shares rise")])) in
  let run := _fetch_news_from_newsapi_for_gui (Some c) (scorer f0_5) "AAPL" in
  result run = Return (None, [])
  ∧ Exists (λ e, is_showerror e = true) (trace run).
Proof.
  intros c.
  apply (fetch_null_title_discards c (scorer f0_5) "AAPL"
           (response_dict true (Value
               [Article (Value "AAPL beats earnings") Null;
                Article Null (Value "shares rise")]))
           [Article (Value "AAPL beats earnings") Null;
            Article Null (Value "shares rise")]
           (Article Null (Value "shares rise"))).
  - intros text e. discriminate.
  - reflexivity.
  - reflexivity.
  - reflexivity.
  - apply elem_of_cons. right. apply elem_of_cons. by left.
  - reflexivity.
  - reflexivity.
Defined.

(** X3: without a client the wrapper does nothing that can be seen; with
    one it queries it once, first of all, for the ticker it was given, and
    when that query raises no article is scored. *)
Theorem fetch_queries_once
  (analyze_sentiment : string -> outcome float64) (ticker : string) :
  _fetch_news_from_newsapi_for_gui None analyze_sentiment ticker =
  (Return (None, []), [])
  ∧ (∀ c, ∃ rest,
       trace (_fetch_news_from_newsapi_for_gui (Some c) analyze_sentiment
                ticker) =
       call_get_everything ticker :: rest
       ∧ Forall (λ e, is_get_everything e = false) rest
       ∧ ((∃ e, c ticker = Raise e) →
          Forall (λ e, is_scoring e = false) rest)).
Proof.
  split; [done|]. intros c. rewrite fetch_run.
  assert (∀ l, Forall (λ e, is_get_everything e = false)
                 (trace (article_sentiments analyze_sentiment l))) as Hsc.
  { intros l. eapply Forall_impl; [apply scoring_events|].
    by intros []. }
  assert (∀ e, is_get_everything (error_box e) = false
               ∧ is_scoring (error_box e) = false) as Hbox
    by by intros [text [| |m]| | |].
  assert (∀ e t, Forall (λ e, is_get_everything e = false) t →
            ∃ rest, trace (caught e (call_get_everything ticker :: t)) =
                    call_get_everything ticker :: rest
                    ∧ Forall (λ e, is_get_everything e = false) rest
                    ∧ (t = [] → Forall (λ e, is_scoring e = false) rest))
    as Hcaught.
  { intros e t Ht. rewrite caught_trace. destruct (handler_fails e).
    - exists t. split; [done|]. split; [done|]. by intros ->.
    - exists (t ++ [error_box e]). split; [done|]. split.
      + apply Forall_app. split; [done|]. repeat constructor. apply Hbox.
      + intros ->. repeat constructor. apply Hbox. }
  destruct (c ticker) as [resp|e].
  - destruct (response_truthy resp).
    2: { eexists. split; [done|]. split; [constructor|]. by intros [? ?]. }
    destruct (getitem_articles resp) as [[|a l]|e].
    + eexists. split; [done|]. split; [constructor|]. by intros [? ?].
    + specialize (Hsc (a :: l)).
      destruct (article_sentiments analyze_sentiment (a :: l))
        as [[[|s ss]|e] t]; simpl in Hsc.
      * eexists. split; [done|]. split; [done|]. by intros [? ?].
      * eexists. split; [done|]. split; [done|]. by intros [? ?].
      * destruct (Hcaught e t Hsc) as (rest & -> & Hrest & _).
        exists rest. split; [done|]. split; [done|]. by intros [? ?].
    + destruct (Hcaught e [] ltac:(constructor)) as (rest & -> & Hrest & _).
      exists rest. split; [done|]. split; [done|]. by intros [? ?].
  - destruct (Hcaught e [] ltac:(constructor)) as (rest & -> & Hrest & Hs).
    exists rest. split; [done|]. split; [done|]. intros _. by apply Hs.
Qed.

(** X4: with a client, the wrapper shows an error box exactly when it
    caught an exception other than a [NewsAPIException] without a message,
    be it from the client, from a response without ['articles'], or from
    scoring an article; it ends in a [KeyError] exactly when it caught a
    [NewsAPIException] without a message, and then shows no box. A
    response without news is passed over in silence. *)
Theorem fetch_error_box_iff_exception
  (c : string -> outcome response)
  (analyze_sentiment : string -> outcome float64) (ticker : string) :
  let run := _fetch_news_from_newsapi_for_gui (Some c) analyze_sentiment ticker in
  let caught_exception (e : exn) : Prop :=
    c ticker = Raise e
    ∨ ∃ resp, c ticker = Return resp ∧ response_truthy resp = true
              ∧ (getitem_articles resp = Raise e
                 ∨ ∃ l, getitem_articles resp = Return l
                        ∧ result (article_sentiments analyze_sentiment l) =
                          Raise e) in
  (Exists (λ e, is_showerror e = true) (trace run)
   ↔ ∃ e, caught_exception e ∧ handler_fails e = false)
  ∧ (result run = Raise (KeyError "message")
     ↔ ∃ e, caught_exception e ∧ handler_fails e = true)
  ∧ ((∃ fetched, result run = Return fetched)
     ∨ (result run = Raise (KeyError "message")
        ∧ ¬ Exists (λ e, is_showerror e = true) (trace run))).
Proof.
  intros run caught_exception. subst run.
  assert (∀ t, ¬ Exists (λ e, is_showerror e = true) t →
            ¬ Exists (λ e, is_showerror e = true)
                (call_get_everything ticker :: t)) as Hcall.
  { intros t Hno Hex. apply Exists_cons in Hex as [?|Hex]; done. }
  assert (∀ e t, ¬ Exists (λ e, is_showerror e = true) t →
            (Exists (λ e, is_showerror e = true) (trace (caught e t))
             ↔ handler_fails e = false)
            ∧ (result (caught e t) = Raise (KeyError "message")
               ↔ handler_fails e = true)
            ∧ ((∃ fetched, result (caught e t) = Return fetched)
               ∨ (result (caught e t) = Raise (KeyError "message")
                  ∧ ¬ Exists (λ e, is_showerror e = true)
                        (trace (caught e t))))) as Hcaught.
  { intros e t Hno. rewrite caught_result, caught_trace.
    destruct (handler_fails e); repeat split; try done; eauto.
    intros _. apply Exists_app. right.
    apply Exists_cons_hd, is_showerror_error_box. }
  assert (∀ e1 e2, caught_exception e1 → caught_exception e2 → e1 = e2)
    as Huniq.
  { intros e1 e2. unfold caught_exception.
    intros [H1|(r1 & Hr1 & _ & [H1|(l1 & Hl1 & H1)])]
           [H2|(r2 & Hr2 & _ & [H2|(l2 & Hl2 & H2)])];
      simplify_eq; congruence. }
  assert (∀ e, caught_exception e →
            ∀ Q : exn → Prop, (∃ e', caught_exception e' ∧ Q e') ↔ Q e)
    as Hone.
  { intros e He Q. split; [|eauto].
    intros (e' & He' & HQ). by rewrite (Huniq e e' He He'). }
  assert (¬ Exists (λ e, is_showerror e = true) []) as Hnil
    by by intros ?%Exists_nil.
  assert (∀ t, ¬ Exists (λ e, is_showerror e = true) t →
            (∀ e, ¬ caught_exception e) →
            ∀ r : sample title,
              (Exists (λ e, is_showerror e = true) t
               ↔ ∃ e, caught_exception e ∧ handler_fails e = false)
              ∧ (Return r = Raise (KeyError "message")
                 ↔ ∃ e, caught_exception e ∧ handler_fails e = true)
              ∧ ((∃ fetched, Return r = Return fetched)
                 ∨ (Return r = Raise (KeyError "message")
                    ∧ ¬ Exists (λ e, is_showerror e = true) t))) as Hquiet.
  { intros t Hno Hnone r. repeat split; try done; eauto.
    - intros (e & He & _). by apply Hnone in He.
    - intros (e & He & _). by apply Hnone in He. }
  rewrite fetch_run.
  destruct (c ticker) as [resp|e] eqn:Hc.
  2: { assert (caught_exception e) as He by by left.
       rewrite !(Hone e He). by apply Hcaught, Hcall. }
  destruct (response_truthy resp) eqn:Ht.
  2: { apply Hquiet; [by apply Hcall|].
       intros e [?|(r & ? & ? & _)]; simplify_eq. congruence. }
  destruct (getitem_articles resp) as [[|a l]|e] eqn:Hg.
  - apply Hquiet; [by apply Hcall|].
    intros e [?|(r & ? & ? & [?|(l & ? & Hr)])]; simplify_eq.
    + congruence.
    + assert (l = []) as -> by congruence. done.
  - pose proof (scoring_no_showerror analyze_sentiment (a :: l)) as Hno.
    destruct (article_sentiments analyze_sentiment (a :: l))
      as [[ss|e] t] eqn:Hs; simpl in Hno.
    + assert (∀ e, ¬ caught_exception e) as Hnone.
      { intros e [?|(r & ? & ? & [?|(l' & ? & Hr)])]; simplify_eq.
        - congruence.
        - assert (l' = a :: l) as -> by congruence. by rewrite Hs in Hr. }
      destruct ss; apply Hquiet; try done; by apply Hcall.
    + assert (caught_exception e) as He.
      { right. exists resp. repeat split; try done. right.
        exists (a :: l). by rewrite Hs. }
      rewrite !(Hone e He). by apply Hcaught, Hcall.
  - assert (caught_exception e) as He.
    { right. exists resp. by repeat split; try done; left. }
    rewrite !(Hone e He). by apply Hcaught, Hcall.
Qed.

(** ** Stripping and upper case *)

Lemma lstrip_empty (s : string) : lstrip s = EmptyString ↔ blank s = true.
Proof.
  induction s as [|c s IH]; simpl; [done|].
  destruct (is_whitespace c); simpl; [done|]. split; discriminate.
Qed.

Lemma rstrip_empty (s : string) : rstrip s = EmptyString ↔ blank s = true.
Proof.
  induction s as [|c s IH]; simpl; [done|].
  destruct (rstrip s) eqn:Hr.
  - destruct (is_whitespace c); simpl.
    + split; [intros _; by apply IH|done].
    + split; discriminate.
  - split; [discriminate|]. intros [_ Hb]%andb_true_iff.
    by apply IH in Hb.
Qed.

Lemma lstrip_head (s : string) :
  lstrip s = EmptyString
  ∨ ∃ c rest, lstrip s = String c rest ∧ is_whitespace c = false.
Proof.
  induction s as [|c s IH]; simpl; [by left|].
  destruct (is_whitespace c) eqn:Hc; [done|]. right. eauto.
Qed.

Lemma rstrip_head (c : ascii) (s : string) :
  is_whitespace c = false → ∃ rest, rstrip (String c s) = String c rest.
Proof. intros Hc. simpl. rewrite Hc. destruct (rstrip s); eauto. Qed.

Lemma rstrip_idemp (s : string) : rstrip (rstrip s) = rstrip s.
Proof.
  induction s as [|c s IH]; simpl; [done|].
  destruct (rstrip s) as [|c' kept] eqn:Hr.
  - destruct (is_whitespace c) eqn:Hc; simpl; [done|]. by rewrite Hc.
  - cbn [rstrip] in *. by rewrite IH.
Qed.

Lemma strip_empty (s : string) : strip s = EmptyString ↔ blank s = true.
Proof.
  unfold strip. destruct (lstrip_head s) as [He|(c & rest & He & Hc)].
  - rewrite He. simpl. by rewrite <- lstrip_empty.
  - rewrite He. destruct (rstrip_head c rest Hc) as [r ->].
    rewrite <- lstrip_empty, He. split; discriminate.
Qed.

Lemma strip_idemp (s : string) : strip (strip s) = strip s.
Proof.
  unfold strip. destruct (lstrip_head s) as [->|(c & rest & -> & Hc)];
    [done|].
  destruct (rstrip_head c rest Hc) as [r Hr]. rewrite Hr.
  cbn [lstrip]. rewrite Hc, <- Hr. apply rstrip_idemp.
Qed.

Lemma upper_char_idemp (c : ascii) : upper_char (upper_char c) = upper_char c.
Proof. by destruct c as [[] [] [] [] [] [] [] []]. Qed.

Lemma is_whitespace_upper_char (c : ascii) :
  is_whitespace (upper_char c) = is_whitespace c.
Proof. by destruct c as [[] [] [] [] [] [] [] []]. Qed.

Lemma upper_idemp (s : string) : upper (upper s) = upper s.
Proof.
  induction s as [|c s IH]; simpl; [done|].
  by rewrite upper_char_idemp, IH.
Qed.

Lemma upper_lstrip (s : string) : upper (lstrip s) = lstrip (upper s).
Proof.
  induction s as [|c s IH]; simpl; [done|].
  rewrite is_whitespace_upper_char. by destruct (is_whitespace c).
Qed.

Lemma upper_rstrip (s : string) : upper (rstrip s) = rstrip (upper s).
Proof.
  induction s as [|c s IH]; simpl; [done|].
  rewrite <- IH, is_whitespace_upper_char.
  destruct (rstrip s); simpl; [|done]. by destruct (is_whitespace c).
Qed.

Lemma upper_strip (s : string) : upper (strip s) = strip (upper s).
Proof. unfold strip. by rewrite upper_rstrip, upper_lstrip. Qed.

Lemma endswith_upper (s suffix : string) :
  endswith s suffix = true → endswith (upper s) (upper suffix) = true.
Proof.
  induction s as [|c s IH]; cbn [endswith upper].
  - by destruct suffix.
  - destruct (String.eqb_spec (String c s) suffix) as [<-|_].
    + intros _. cbn [upper]. by rewrite String.eqb_refl.
    + intros Hs. rewrite (IH Hs). by destruct (String.eqb _ _).
Qed.

(** X5: the ticker that comes out of an entry is left as it is when it is
    entered again; it is blank exactly when the entry is made of white
    space only; and an entry that ends in [.ns], in whatever case, gives a
    ticker that ends in [.NS]. *)
Theorem processed_ticker_is_stable (entry suffix : string) :
  let ticker := upper (strip entry) in
  upper (strip ticker) = ticker
  ∧ (truthy ticker = false ↔ blank entry = true)
  ∧ (truthy (strip entry) = false ↔ blank entry = true)
  ∧ (upper suffix = ".NS"%string →
     endswith (strip entry) suffix = true → endswith ticker ".NS" = true).
Proof.
  intros ticker. subst ticker. split; [|split; [|split]].
  - by rewrite <- upper_strip, strip_idemp, upper_idemp.
  - by rewrite truthy_upper, truthy_false, strip_empty.
  - by rewrite truthy_false, strip_empty.
  - intros <- Hs. by apply endswith_upper.
Qed.

Lemma filter_none {A} (f : A -> bool) (l : list A) :
  (∀ x, x ∈ l → f x = false) → List.filter f l = [].
Proof.
  induction l as [|x l IH]; intros Hall; simpl; [done|].
  rewrite (Hall x) by (apply elem_of_cons; by left).
  apply IH. intros y Hy. apply Hall. apply elem_of_cons. by right.
Qed.

Lemma wrapper_fetch_events
      (c : string -> outcome response)
      (analyze_sentiment : string -> outcome float64) (ticker : string) :
  List.filter is_fetch
    (trace (_fetch_news_from_newsapi_for_gui (Some c) analyze_sentiment ticker)) =
  [call_get_everything ticker].
Proof.
  rewrite fetch_run.
  assert (∀ l, List.filter is_fetch
                 (trace (article_sentiments analyze_sentiment l)) = [])
    as Hsc.
  { intros l. apply filter_none. intros e Hin.
    pose proof (scoring_events analyze_sentiment l) as Hall.
    rewrite Forall_forall in Hall. specialize (Hall e Hin). by destruct e. }
  assert (∀ e, is_fetch (error_box e) = false) as Hbox
    by by intros [text [| |m]| | |].
  assert (∀ e t, List.filter is_fetch t = [] →
            List.filter is_fetch
              (trace (caught e (call_get_everything ticker :: t))) =
            [call_get_everything ticker]) as Hcaught.
  { intros e t Ht. rewrite caught_trace.
    destruct (handler_fails e); cbn [List.filter is_fetch app];
      rewrite ?List.filter_app, Ht; [done|]. simpl. by rewrite Hbox. }
  destruct (c ticker) as [resp|e]; [|by apply Hcaught].
  destruct (response_truthy resp); [|done].
  destruct (getitem_articles resp) as [[|a l]|e];
    [done| |by apply Hcaught].
  specialize (Hsc (a :: l)).
  destruct (article_sentiments analyze_sentiment (a :: l))
    as [[[|s ss]|e] t]; cbn [trace snd] in Hsc.
  - cbn [trace snd List.filter is_fetch]. by rewrite Hsc.
  - cbn [trace snd List.filter is_fetch]. by rewrite Hsc.
  - by apply Hcaught.
Qed.

(** ** The runs of the desktop front end *)

Section DesktopRun.
Variable strip : string -> string.
Variable upper : string -> string.
Variable H : Type.
Variable df_empty : H -> bool.
Variable get_stock_data : string -> stock_data H.
Variable newsapi_client_gui : option (string -> outcome response).
Variable analyze_sentiment : string -> outcome float64.
Variable BASE_GOOGLE_NEWS_RSS_URL_format : string -> string.
Variable fetch_news_sentiment_from_rss : string -> string -> sample title.
Variable DEEPSEEK_API_KEY : option string.

Let run (entry : string) : M unit :=
  analyze_stock_action strip upper H df_empty get_stock_data newsapi_client_gui
    analyze_sentiment BASE_GOOGLE_NEWS_RSS_URL_format
    fetch_news_sentiment_from_rss DEEPSEEK_API_KEY entry.

Let wrapper (ticker : string) : M (sample title) :=
  _fetch_news_from_newsapi_for_gui newsapi_client_gui analyze_sentiment ticker.

Let rss (ticker : string) : sample title :=
  fetch_news_sentiment_from_rss (BASE_GOOGLE_NEWS_RSS_URL_format ticker) ticker.

Let opening (ticker : string) : list event :=
  [clear_output;
   output_insert (String.append "Analyzing " (String.append ticker "...

"));
   call_get_stock_data ticker].

Lemma wrapper_result (ticker : string) :
  (∃ newsapi, result (wrapper ticker) = Return newsapi)
  ∨ result (wrapper ticker) = Raise (KeyError "message").
Proof.
  unfold wrapper.
  destruct (fetch_cases analyze_sentiment newsapi_client_gui ticker)
    as [Hs|[(c & resp & l & ss & _ & _ & _ & _ & _ & _ & _ & Hs)
           |(c & e & _ & _ & _ & Hs)]]; eauto.
Qed.

(** The run when the market data cannot be used. *)
Lemma desktop_run_no_data (entry : string) :
  let ticker := upper (strip entry) in
  truthy ticker = true →
  usable_history df_empty (get_stock_data ticker) = None →
  run entry =
  (Return tt,
   opening ticker ++
   [output_insert
      (if truthy_opt (error (get_stock_data ticker))
       then String.append "Error: "
              (String.append
                 (default EmptyString (error (get_stock_data ticker))) "
")
       else insufficient_data ticker)]).
Proof.
  intros ticker Ht. unfold usable_history, run, analyze_stock_action.
  fold ticker. rewrite Ht. cbn [negb bind tell call].
  destruct (truthy_opt (error (get_stock_data ticker))); [done|].
  destruct (historical_data (get_stock_data ticker)) as [hist|]; [|done].
  by destruct (df_empty hist).
Qed.

(** The run when the market data can be used but has no current price. *)
Lemma desktop_run_no_price (entry : string) (hist : H) :
  let ticker := upper (strip entry) in
  truthy ticker = true →
  usable_history df_empty (get_stock_data ticker) = Some hist →
  current_price (get_stock_data ticker) = None →
  run entry =
  (Raise (TypeError "unsupported format string passed to NoneType.__format__"),
   opening ticker).
Proof.
  intros ticker Ht. unfold usable_history, run, analyze_stock_action.
  fold ticker. rewrite Ht. cbn [negb bind tell call].
  destruct (truthy_opt (error (get_stock_data ticker))); [done|].
  destruct (historical_data (get_stock_data ticker)) as [h|]; [|done].
  destruct (df_empty h); [done|]. intros _ ->. reflexivity.
Qed.

(** The run when the wrapper lets an exception out. *)
Lemma desktop_run_fetch_raises (entry : string) (hist : H) (price : float64)
      (e : exn) :
  let ticker := upper (strip entry) in
  truthy ticker = true →
  usable_history df_empty (get_stock_data ticker) = Some hist →
  current_price (get_stock_data ticker) = Some price →
  result (wrapper ticker) = Raise e →
  run entry =
  (Raise e,
   opening ticker ++ [call_calculate_technical_indicators]
   ++ trace (wrapper ticker)).
Proof.
  intros ticker Ht. unfold usable_history, run, analyze_stock_action.
  fold ticker. rewrite Ht. cbn [negb bind tell call].
  destruct (truthy_opt (error (get_stock_data ticker))); [done|].
  destruct (historical_data (get_stock_data ticker)) as [h|]; [|done].
  destruct (df_empty h); [done|]. intros _ -> Hw.
  fold (wrapper ticker). destruct (wrapper ticker) as [[x|e'] t].
  - done.
  - simpl in Hw. injection Hw as ->. reflexivity.
Qed.

(** The run when the market data can be used, the price is there and the
    wrapper returns. *)
Lemma desktop_run_data (entry : string) (hist : H) (price : float64)
      (newsapi : sample title) :
  let ticker := upper (strip entry) in
  let v := desktop_aggregation newsapi (rss ticker) unbound in
  let text := sample_news_content_event ticker in
  truthy ticker = true →
  usable_history df_empty (get_stock_data ticker) = Some hist →
  current_price (get_stock_data ticker) = Some price →
  result (wrapper ticker) = Return newsapi →
  run entry =
  (match analyze_sentiment text with
   | Return _ => Return tt
   | Raise e => Raise e
   end,
   opening ticker
   ++ [call_calculate_technical_indicators]
   ++ trace (wrapper ticker)
   ++ [call_fetch_rss (BASE_GOOGLE_NEWS_RSS_URL_format ticker) ticker;
       call_analyze_stock (overall_news_sentiment v);
       call_enhanced_analysis ticker (overall_news_sentiment v)
         (combined_news_titles v)]
   ++ (if truthy_opt DEEPSEEK_API_KEY
          && negb (bool_decide (combined_news_titles v = []))
       then [call_summarize (combined_news_titles v) ticker] else [])
   ++ [call_extract_financial_events text; call_analyze_sentiment text]
   ++ match analyze_sentiment text with
      | Return _ => [call_assess_impact; call_generate_signal]
      | Raise _ => []
      end).
Proof.
  intros ticker v text Ht. unfold usable_history, run, analyze_stock_action.
  fold ticker. rewrite Ht. cbn [negb bind tell call].
  destruct (truthy_opt (error (get_stock_data ticker))); [done|].
  destruct (historical_data (get_stock_data ticker)) as [h|]; [|done].
  destruct (df_empty h); [done|]. intros _ -> Hw.
  fold (wrapper ticker). destruct (wrapper ticker) as [[x|e'] t]; [|done].
  simpl in Hw. injection Hw as ->.
  unfold bind, call, call_raising, tell, ret, opening, format_price.
  cbv zeta. subst v. unfold rss.
  set (v := desktop_aggregation _ _ _). fold text.
  destruct (truthy_opt DEEPSEEK_API_KEY
            && negb (bool_decide (combined_news_titles v = [])));
    destruct (analyze_sentiment text); cbn [app trace snd];
    by rewrite ?app_nil_r, <- ?app_assoc.
Qed.

Lemma wrapper_events (ticker : string) :
  Forall (λ e, is_wrapper_event e = true) (trace (wrapper ticker)).
Proof. unfold wrapper. by apply all_fetch. Qed.

Lemma wrapper_no_analysis (ticker : string) (e : event) :
  e ∈ trace (wrapper ticker) → is_analysis e = false.
Proof.
  intros Hin. pose proof (wrapper_events ticker) as Hall.
  rewrite Forall_forall in Hall. specialize (Hall e Hin). by destruct e.
Qed.

(** X6: with the other collaborators returning, a run of the desktop front
    end ends in an exception only when the market data was usable, and
    then in one of three: the [TypeError] of formatting a current price
    that is [None], the [KeyError] that the NewsAPI wrapper lets out, or
    what the scorer raised on the built-in sample text. *)
Theorem desktop_run_ends (entry : string) :
  let ticker := upper (strip entry) in
  result (run entry) = Return tt
  ∨ ∃ e hist,
      usable_history df_empty (get_stock_data ticker) = Some hist
      ∧ result (run entry) = Raise e
      ∧ ((current_price (get_stock_data ticker) = None
          ∧ e = TypeError
                  "unsupported format string passed to NoneType.__format__")
         ∨ (result (wrapper ticker) = Raise e ∧ e = KeyError "message")
         ∨ analyze_sentiment (sample_news_content_event ticker) = Raise e).
Proof.
  intros ticker. destruct (truthy ticker) eqn:Ht.
  2: { left. unfold run, analyze_stock_action. fold ticker. by rewrite Ht. }
  destruct (usable_history df_empty (get_stock_data ticker))
    as [hist|] eqn:Hu.
  2: { left. by rewrite (desktop_run_no_data entry Ht Hu). }
  destruct (current_price (get_stock_data ticker)) as [price|] eqn:Hp.
  2: { right. eexists _, hist. split; [done|].
       rewrite (desktop_run_no_price entry hist Ht Hu Hp). eauto. }
  destruct (wrapper_result ticker) as [[newsapi Hw]|Hw].
  - rewrite (desktop_run_data entry hist price newsapi Ht Hu Hp Hw).
    cbn [result fst]. fold ticker.
    destruct (analyze_sentiment (sample_news_content_event ticker))
      as [s|e] eqn:Hs; [by left|].
    right. exists e, hist. eauto.
  - right. exists (KeyError "message"), hist. split; [done|].
    rewrite (desktop_run_fetch_raises entry hist price _ Ht Hu Hp Hw). eauto.
Qed.

(** X7: with usable market data, a current price, and the wrapper
    returning, the desktop front end calls [analyze_stock] and
    [enhanced_analysis] once each, with the same sentiment, the one
    aggregated from the NewsAPI and the RSS samples; [enhanced_analysis]
    gets the titles of the contributing samples one after the other,
    repeats included; the summary is asked for, with the same titles,
    exactly when [DEEPSEEK_API_KEY] is not empty and there is a title. *)
Theorem desktop_analysis_arguments (entry : string) (hist : H)
        (price : float64) (newsapi : sample title) :
  let ticker := upper (strip entry) in
  let samples := [newsapi; rss ticker] in
  let overall := overall_news_sentiment (aggregate Desktop samples unbound) in
  truthy ticker = true →
  usable_history df_empty (get_stock_data ticker) = Some hist →
  current_price (get_stock_data ticker) = Some price →
  result (wrapper ticker) = Return newsapi →
  List.filter is_analysis (trace (run entry)) =
  [call_analyze_stock overall;
   call_enhanced_analysis ticker overall (contributed_titles samples)]
  ++ (if truthy_opt DEEPSEEK_API_KEY
         && negb (bool_decide (contributed_titles samples = []))
      then [call_summarize (contributed_titles samples) ticker]
      else []).
Proof.
  intros ticker samples overall Ht Hu Hp Hw.
  rewrite (desktop_run_data entry hist price newsapi Ht Hu Hp Hw).
  cbn [trace snd]. fold ticker.
  assert (List.filter is_analysis (trace (wrapper ticker)) = []) as Hnone.
  { apply filter_none. apply wrapper_no_analysis. }
  rewrite desktop_aggregation_aggregate, aggregate_spec.
  cbn [overall_news_sentiment combined_news_titles].
  subst overall. rewrite aggregate_spec. cbn [overall_news_sentiment].
  fold samples.
  rewrite !List.filter_app, Hnone.
  destruct (truthy_opt DEEPSEEK_API_KEY
            && negb (bool_decide (contributed_titles samples = [])));
    by destruct (analyze_sentiment (sample_news_content_event ticker)).
Qed.

(** X8: when the market data has an error message, or no frame, or an
    empty one, the desktop front end makes no call after
    [get_stock_data]: it writes one line and ends; the error message goes
    first, whatever the frame is. *)
Theorem desktop_stops_without_data (entry : string) :
  let ticker := upper (strip entry) in
  truthy ticker = true →
  usable_history df_empty (get_stock_data ticker) = None →
  result (run entry) = Return tt
  ∧ List.filter is_call (trace (run entry)) = [call_get_stock_data ticker]
  ∧ length (trace (run entry)) = 4%nat
  ∧ (truthy_opt (error (get_stock_data ticker)) = true →
     last (trace (run entry)) =
     Some (output_insert
             (String.append "Error: "
                (String.append
                   (default EmptyString (error (get_stock_data ticker))) "
")))).
Proof.
  intros ticker Ht Hu. rewrite (desktop_run_no_data entry Ht Hu).
  fold ticker. repeat split. intros ->. reflexivity.
Qed.

(** X15: with usable market data, a current price, and the wrapper
    returning, the desktop front end has queried NewsAPI once when there
    is a client and not at all when there is none, and then reads the RSS
    feed of the ticker, whatever keys are set. *)
Theorem desktop_fetches (entry : string) (hist : H) (price : float64)
        (newsapi : sample title) :
  let ticker := upper (strip entry) in
  truthy ticker = true →
  usable_history df_empty (get_stock_data ticker) = Some hist →
  current_price (get_stock_data ticker) = Some price →
  result (wrapper ticker) = Return newsapi →
  List.filter is_fetch (trace (run entry)) =
  match newsapi_client_gui with
  | Some _ => [call_get_everything ticker]
  | None => []
  end ++ [call_fetch_rss (BASE_GOOGLE_NEWS_RSS_URL_format ticker) ticker].
Proof.
  intros ticker Ht Hu Hp Hw.
  rewrite (desktop_run_data entry hist price newsapi Ht Hu Hp Hw).
  cbn [trace snd]. fold ticker.
  rewrite !List.filter_app.
  assert (List.filter is_fetch (trace (wrapper ticker)) =
          match newsapi_client_gui with
          | Some _ => [call_get_everything ticker]
          | None => []
          end) as ->.
  { unfold wrapper.
    destruct newsapi_client_gui; [apply wrapper_fetch_events|done]. }
  destruct (truthy_opt DEEPSEEK_API_KEY && _);
    destruct (analyze_sentiment (sample_news_content_event ticker));
    cbn [List.filter is_fetch app]; by rewrite ?app_nil_r.
Qed.

End DesktopRun.

(** ** The runs of the dashboard *)

Lemma blank_append (s s' : string) :
  blank (String.append s s') = blank s && blank s'.
Proof.
  induction s as [|c s IH]; simpl; [done|].
  by rewrite IH, andb_assoc.
Qed.

Lemma truthy_strip (s : string) : truthy (strip s) = negb (blank s).
Proof.
  destruct (blank s) eqn:Hb.
  - apply strip_empty in Hb. by rewrite Hb.
  - destruct (truthy (strip s)) eqn:Ht; [done|].
    apply truthy_false, strip_empty in Ht. congruence.
Qed.

Lemma sample_news_item_not_blank (ticker : string) :
  blank (sample_news_item ticker) = false.
Proof.
  unfold sample_news_item. rewrite !blank_append.
  by rewrite andb_false_r.
Qed.

Section WebRun.
Variable strip : string -> string.
Variable upper : string -> string.
Variable H : Type.
Variable df_empty : H -> bool.
Variable get_stock_data : string -> stock_data H.
Variable talib : bool.
Variable APP_NEWS_API_KEY : option string.
Variable APP_GNEWS_API_KEY : option string.
Variable fetch_news_sentiment_from_newsapi : string -> sample title.
Variable fetch_news_sentiment_from_gnews : string -> sample title.
Variable analyze_sentiment : string -> outcome float64.

Let run (ticker_input_raw : string) : M unit :=
  analyze_stock_button strip upper H df_empty get_stock_data talib APP_NEWS_API_KEY
    APP_GNEWS_API_KEY fetch_news_sentiment_from_newsapi
    fetch_news_sentiment_from_gnews analyze_sentiment ticker_input_raw.

Let newsapi (ticker : string) : sample title :=
  if truthy_opt APP_NEWS_API_KEY
  then fetch_news_sentiment_from_newsapi ticker else (None, []).

Let gnews (ticker : string) : sample title :=
  if endswith ticker ".NS" && truthy_opt APP_GNEWS_API_KEY
  then fetch_news_sentiment_from_gnews ticker else (None, []).

Let aggregated (ticker : string) : vars :=
  web_aggregation (newsapi ticker) (gnews ticker) unbound.

Let item (ticker : string) : string :=
  news_item_for_event_analysis ticker (combined_news_titles (aggregated ticker)).

Let opening (ticker : string) : list event :=
  [st_info (String.append "Analyzing " (String.append ticker "..."));
   call_get_stock_data ticker].

Lemma web_run_no_data (entry : string) :
  let ticker := upper (strip entry) in
  truthy (strip entry) = true →
  usable_history df_empty (get_stock_data ticker) = None →
  run entry =
  (Return tt,
   opening ticker ++
   [if truthy_opt (error (get_stock_data ticker))
    then st_error (String.append "Error fetching data: "
                     (default EmptyString (error (get_stock_data ticker))))
    else st_warning (String.append "Could not retrieve sufficient data for "
                       (String.append ticker "."))]).
Proof.
  intros ticker Ht. unfold usable_history, run, analyze_stock_button.
  fold ticker. rewrite Ht. cbn [negb bind tell call].
  destruct (truthy_opt (error (get_stock_data ticker))); [done|].
  destruct (historical_data (get_stock_data ticker)) as [hist|]; [|done].
  by destruct (df_empty hist).
Qed.

Lemma web_run_data (entry : string) (hist : H) :
  let ticker := upper (strip entry) in
  let v := aggregated ticker in
  truthy (strip entry) = true →
  usable_history df_empty (get_stock_data ticker) = Some hist →
  run entry =
  (if truthy (strip (item ticker)) then
     match analyze_sentiment (item ticker) with
     | Return _ => Return tt
     | Raise e => Raise e
     end
   else Return tt,
   opening ticker
   ++ [call_create_chart price_volume_chart ticker]
   ++ (if talib then [call_create_chart rsi_chart ticker;
                      call_create_chart macd_chart ticker] else [])
   ++ [call_calculate_technical_indicators]
   ++ (if truthy_opt APP_NEWS_API_KEY
       then [call_fetch_newsapi ticker] else [])
   ++ (if endswith ticker ".NS" && truthy_opt APP_GNEWS_API_KEY
       then [call_fetch_gnews ticker] else [])
   ++ [call_analyze_stock (overall_news_sentiment v);
       call_enhanced_analysis ticker (overall_news_sentiment v)
         (combined_news_titles v)]
   ++ (if truthy (strip (item ticker)) then
         [call_extract_financial_events (item ticker);
          call_analyze_sentiment (item ticker)]
         ++ match analyze_sentiment (item ticker) with
            | Return _ => [call_assess_impact; call_generate_signal]
            | Raise _ => []
            end
       else [])).
Proof.
  intros ticker v Ht. unfold usable_history, run, analyze_stock_button.
  fold ticker. rewrite Ht. cbn [negb bind tell call].
  destruct (truthy_opt (error (get_stock_data ticker))); [done|].
  destruct (historical_data (get_stock_data ticker)) as [h|]; [|done].
  destruct (df_empty h); [done|]. intros _.
  unfold newsapi_sample, gnews_sample.
  subst v. unfold item, aggregated, newsapi, gnews.
  assert (∀ t, truthy (news_item_for_event_analysis ticker t) = true) as Hi.
  { intros [|[t|] rest]; simpl; try done. by destruct t. }
  destruct talib, (truthy_opt APP_NEWS_API_KEY),
    (endswith ticker ".NS"), (truthy_opt APP_GNEWS_API_KEY);
    cbn [andb]; unfold bind, call, call_raising, tell, ret, opening;
    cbv zeta; rewrite Hi; cbn [andb];
    set (text := news_item_for_event_analysis _ _);
    destruct (truthy (strip text)); try reflexivity;
    destruct (analyze_sentiment text); reflexivity.
Qed.

(** X9: a run of the dashboard ends normally unless the scorer raises on
    the text taken for the event analysis, and then it ends in that
    exception; the fetchers' samples cannot make it fail. *)
Theorem web_run_ends (entry : string) :
  let ticker := upper (strip entry) in
  result (run entry) = Return tt
  ∨ ∃ e hist,
      usable_history df_empty (get_stock_data ticker) = Some hist
      ∧ analyze_sentiment (item ticker) = Raise e
      ∧ result (run entry) = Raise e.
Proof.
  intros ticker. destruct (truthy (strip entry)) eqn:Ht.
  - destruct (usable_history df_empty (get_stock_data ticker))
      as [hist|] eqn:Hu.
    + rewrite (web_run_data entry hist Ht Hu). cbn [result fst].
      fold ticker. destruct (truthy (strip (item ticker))); [|by left].
      destruct (analyze_sentiment (item ticker)) as [s|e] eqn:Hs;
        [by left|].
      right. by exists e, hist.
    + left. by rewrite (web_run_no_data entry Ht Hu).
  - left. unfold run, analyze_stock_button. by rewrite Ht.
Qed.

(** X10: with usable market data the dashboard calls [analyze_stock] and
    [enhanced_analysis] once each, with the same sentiment, the one
    aggregated from the two guarded samples; the titles it hands to
    [enhanced_analysis] have no repeats and are the titles of the
    contributing samples. *)
Theorem web_analysis_arguments (entry : string) (hist : H) :
  let ticker := upper (strip entry) in
  let samples := [newsapi ticker; gnews ticker] in
  let overall := overall_news_sentiment (aggregate Web samples unbound) in
  let titles := combined_news_titles (aggregate Web samples unbound) in
  truthy (strip entry) = true →
  usable_history df_empty (get_stock_data ticker) = Some hist →
  List.filter is_analysis (trace (run entry)) =
  [call_analyze_stock overall; call_enhanced_analysis ticker overall titles]
  ∧ NoDup titles
  ∧ ∀ t, t ∈ titles ↔ t ∈ contributed_titles samples.
Proof.
  intros ticker samples overall titles Ht Hu.
  rewrite (web_run_data entry hist Ht Hu). cbn [trace snd]. fold ticker.
  unfold aggregated. rewrite web_aggregation_aggregate.
  fold samples. fold overall titles. split; [|split].
  - destruct talib, (truthy_opt APP_NEWS_API_KEY),
      (endswith ticker ".NS" && truthy_opt APP_GNEWS_API_KEY),
      (truthy (strip (item ticker)));
      try destruct (analyze_sentiment (item ticker)); reflexivity.
  - subst titles. rewrite aggregate_spec. apply NoDup_unique_titles.
  - intros t. subst titles. rewrite aggregate_spec.
    cbn [combined_news_titles]. rewrite elem_of_unique_titles.
    split; [tauto|]. intros Hin. split; [done|]. apply not_elem_of_empty.
Qed.

(** X11: when the market data has an error message, or no frame, or an
    empty one, the dashboard makes no call after [get_stock_data]: one
    message and it ends; the error message goes first. *)
Theorem web_stops_without_data (entry : string) :
  let ticker := upper (strip entry) in
  truthy (strip entry) = true →
  usable_history df_empty (get_stock_data ticker) = None →
  result (run entry) = Return tt
  ∧ List.filter is_call (trace (run entry)) = [call_get_stock_data ticker]
  ∧ length (trace (run entry)) = 3%nat
  ∧ (truthy_opt (error (get_stock_data ticker)) = true →
     last (trace (run entry)) =
     Some (st_error (String.append "Error fetching data: "
                       (default EmptyString (error (get_stock_data ticker)))))).
Proof.
  intros ticker Ht Hu. rewrite (web_run_no_data entry Ht Hu).
  fold ticker. repeat split.
  - by destruct (truthy_opt (error (get_stock_data ticker))).
  - intros ->. reflexivity.
Qed.

(** X12: with usable market data the dashboard calls the NewsAPI fetcher
    exactly when [NEWS_API_KEY] is a non-empty string, then the GNews
    fetcher exactly when the ticker ends in [.NS] and [GNEWS_API_KEY] is a
    non-empty string, each once and with the ticker, and no other
    fetcher. *)
Theorem web_fetches (entry : string) (hist : H) :
  let ticker := upper (strip entry) in
  truthy (strip entry) = true →
  usable_history df_empty (get_stock_data ticker) = Some hist →
  List.filter is_fetch (trace (run entry)) =
  (if truthy_opt APP_NEWS_API_KEY then [call_fetch_newsapi ticker] else [])
  ++ (if endswith ticker ".NS" && truthy_opt APP_GNEWS_API_KEY
      then [call_fetch_gnews ticker] else []).
Proof.
  intros ticker Ht Hu.
  rewrite (web_run_data entry hist Ht Hu). cbn [trace snd]. fold ticker.
  destruct talib, (truthy_opt APP_NEWS_API_KEY),
    (endswith ticker ".NS" && truthy_opt APP_GNEWS_API_KEY),
    (truthy (strip (item ticker)));
    try destruct (analyze_sentiment (item ticker)); reflexivity.
Qed.

(** X13: with usable market data the dashboard analyses the events of the
    first aggregated title when that is a string that [strip] does not
    empty; of the sample snippet when there is no title, or the first one
    is [None] or the empty string; and of nothing when the first title is
    not empty but [strip] empties it. The snippet has letters in it:
    [strip] is taken not to empty it. *)
Theorem web_event_analysis_text (entry : string) (hist : H) :
  let ticker := upper (strip entry) in
  let titles := combined_news_titles (aggregated ticker) in
  truthy (strip entry) = true →
  usable_history df_empty (get_stock_data ticker) = Some hist →
  truthy (strip (sample_news_item ticker)) = true →
  List.filter is_extract (trace (run entry)) =
  match titles with
  | Some t :: _ =>
      if truthy t then
        if truthy (strip t) then [call_extract_financial_events t] else []
      else [call_extract_financial_events (sample_news_item ticker)]
  | _ => [call_extract_financial_events (sample_news_item ticker)]
  end.
Proof.
  intros ticker titles Ht Hu Hsample.
  rewrite (web_run_data entry hist Ht Hu). cbn [trace snd]. fold ticker.
  assert (List.filter is_extract
            (if truthy (strip (item ticker)) then
               [call_extract_financial_events (item ticker);
                call_analyze_sentiment (item ticker)]
               ++ match analyze_sentiment (item ticker) with
                  | Return _ => [call_assess_impact; call_generate_signal]
                  | Raise _ => []
                  end
             else []) =
          if truthy (strip (item ticker))
          then [call_extract_financial_events (item ticker)]
          else []) as Hx.
  { destruct (truthy (strip (item ticker))); [|done].
    by destruct (analyze_sentiment (item ticker)). }
  assert (∀ l, List.filter is_extract
                 (opening ticker
                  ++ [call_create_chart price_volume_chart ticker]
                  ++ (if talib then [call_create_chart rsi_chart ticker;
                                     call_create_chart macd_chart ticker]
                      else [])
                  ++ [call_calculate_technical_indicators]
                  ++ (if truthy_opt APP_NEWS_API_KEY
                      then [call_fetch_newsapi ticker] else [])
                  ++ (if endswith ticker ".NS" && truthy_opt APP_GNEWS_API_KEY
                      then [call_fetch_gnews ticker] else [])
                  ++ [call_analyze_stock
                        (overall_news_sentiment (aggregated ticker));
                      call_enhanced_analysis ticker
                        (overall_news_sentiment (aggregated ticker))
                        (combined_news_titles (aggregated ticker))]
                  ++ l) = List.filter is_extract l) as Hpre.
  { intros l.
    destruct talib, (truthy_opt APP_NEWS_API_KEY),
      (endswith ticker ".NS" && truthy_opt APP_GNEWS_API_KEY);
      reflexivity. }
  rewrite Hpre, Hx.
  unfold item. fold titles.
  destruct titles as [|[t|] rest]; cbn [news_item_for_event_analysis];
    rewrite ?Hsample; try done.
  destruct (truthy t); [done|]. by rewrite Hsample.
Qed.

End WebRun.

(** ** The client and the fetches of the desktop front end *)

(** X14: loading the module never fails. There is a client only when
    [NEWS_API_KEY] is a non-empty string, the library was imported and
    making the client returned; a warning is shown exactly when making it
    raised; and without a client the wrapper returns [(None, [])] with no
    call and no message. *)
Theorem client_is_made_with_key_and_library
  (NEWS_API_KEY : option string)
  (NewsApiClient : option (string -> outcome (string -> outcome response)))
  (analyze_sentiment : string -> outcome float64) (ticker : string) :
  let init := init_newsapi_client_gui NEWS_API_KEY NewsApiClient in
  let client := loaded_client NEWS_API_KEY NewsApiClient in
  result init = Return client
  ∧ (∀ c, client = Some c →
       ∃ key make, NEWS_API_KEY = Some key ∧ key ≠ EmptyString
                   ∧ NewsApiClient = Some make ∧ make key = Return c)
  ∧ (trace init ≠ [] ↔
       ∃ key make e, NEWS_API_KEY = Some key ∧ key ≠ EmptyString
                     ∧ NewsApiClient = Some make ∧ make key = Raise e)
  ∧ (truthy_opt NEWS_API_KEY = false ∨ NewsApiClient = None →
       client = None
       ∧ _fetch_news_from_newsapi_for_gui client analyze_sentiment ticker =
         (Return (None, []), [])).
Proof.
  intros init client. subst init client.
  unfold loaded_client, init_newsapi_client_gui.
  destruct NEWS_API_KEY as [[|k key]|], NewsApiClient as [make|];
    cbn [truthy truthy_opt];
    try destruct (make (String k key)) as [c|e] eqn:Hm; simpl;
    repeat split; intros;
    repeat match goal with
           | Hx : ∃ _, _ |- _ => destruct Hx
           | Hx : _ ∧ _ |- _ => destruct Hx
           | Hx : _ ∨ _ |- _ => destruct Hx
           end;
    simplify_eq; try done; try congruence.
  - exists (String k key), make. by repeat split.
  - exists (String k key), make, e. by repeat split.
Qed.

(** ** De-duplication *)

Section DedupFacts.
Context {T : Type} {T_eq : EqDecision T} {T_countable : Countable T}.
Implicit Types (l : list T) (seen : gset T).

Lemma unique_titles_sublist l seen : sublist (unique_titles seen l) l.
Proof.
  revert seen. induction l as [|t l IH]; intros seen; simpl.
  - constructor.
  - destruct (decide (t ∈ seen)).
    + apply sublist_cons, IH.
    + apply sublist_skip, IH.
Qed.

Lemma unique_titles_fresh l seen :
  NoDup l → (∀ t, t ∈ l → t ∉ seen) → unique_titles seen l = l.
Proof.
  revert seen. induction l as [|t l IH]; intros seen Hnd Hfresh; simpl.
  - done.
  - apply NoDup_cons in Hnd as [Ht Hnd].
    destruct (decide (t ∈ seen)) as [Hin|_].
    + exfalso. apply (Hfresh t); [apply elem_of_cons; by left|done].
    + f_equal. apply IH; [done|]. intros x Hx.
      rewrite elem_of_union, elem_of_singleton. intros [->|Hs]; [done|].
      apply (Hfresh x); [apply elem_of_cons; by right|done].
Qed.

Lemma unique_titles_app l l' seen :
  unique_titles seen (l ++ l') =
  unique_titles seen l ++ unique_titles (list_to_set l ∪ seen) l'.
Proof.
  revert seen. induction l as [|t l IH]; intros seen; simpl.
  - f_equal. apply set_eq. intros x.
    rewrite elem_of_union, elem_of_empty. tauto.
  - assert (∀ X : gset T, t ∈ X →
              list_to_set l ∪ X = {[t]} ∪ list_to_set l ∪ X) as Hin.
    { intros X Hx. apply set_eq. intros x.
      rewrite !elem_of_union, elem_of_singleton.
      split; [tauto|]. intros [[->|?]|?]; tauto. }
    assert (list_to_set l ∪ ({[t]} ∪ seen) =
            ({[t]} ∪ list_to_set l ∪ seen : gset T)) as Hout.
    { apply set_eq. intros x. rewrite !elem_of_union. tauto. }
    destruct (decide (t ∈ seen)) as [Ht|Ht].
    + rewrite IH. by rewrite (Hin seen Ht).
    + rewrite IH. simpl. by rewrite Hout.
Qed.

End DedupFacts.

(** X16: the de-duplication of the dashboard keeps the first occurrence of
    each title, in order: what it gives for a list followed by another is
    what it gives for the first, followed by the titles of the second that
    are new; the result is a sublist of the list, has the same first
    title, and a list without repeats is left as it is. *)
Theorem dedup_keeps_first_seen
  {T : Type} `{Countable T} (l l' : list T) :
  unique_titles ∅ (l ++ l') =
  unique_titles ∅ l ++ unique_titles (list_to_set l) l'
  ∧ sublist (unique_titles ∅ l) l
  ∧ head (unique_titles ∅ l) = head l
  ∧ (NoDup l → unique_titles ∅ l = l)
  ∧ unique_titles ∅ (unique_titles ∅ l) = unique_titles ∅ l.
Proof.
  split; [|split; [|split; [|split]]].
  - rewrite unique_titles_app. do 2 f_equal. apply set_eq. intros x.
    rewrite elem_of_union, elem_of_empty. tauto.
  - apply unique_titles_sublist.
  - destruct l as [|t l]; [done|]. simpl.
    destruct (decide (t ∈ (∅ : gset T))) as [Hin|_]; [|done].
    by apply elem_of_empty in Hin.
  - intros Hnd. apply unique_titles_fresh; [done|].
    intros t _. apply not_elem_of_empty.
  - apply unique_titles_fresh; [apply NoDup_unique_titles|].
    intros t _. apply not_elem_of_empty.
Qed.

(** X17: on the same samples the two front ends agree on the overall
    sentiment, on the sentiments collected and on the set of titles; the
    list of titles of the dashboard is the list of the desktop front end
    without the repeats, so it is never longer. *)
Theorem front_ends_agree
  {T : Type} `{Countable T} (samples : list (sample T)) (v v' : vars) :
  let desktop := aggregate Desktop samples v in
  let web := aggregate Web samples v' in
  overall_news_sentiment desktop = overall_news_sentiment web
  ∧ combined_sentiments desktop = combined_sentiments web
  ∧ title_set desktop = title_set web
  ∧ combined_news_titles web = unique_titles ∅ (combined_news_titles desktop)
  ∧ (length (combined_news_titles web) ≤ length (combined_news_titles desktop))%nat.
Proof.
  intros desktop web. subst desktop web. rewrite !aggregate_spec.
  cbn [overall_news_sentiment combined_sentiments combined_news_titles].
  repeat split.
  - unfold title_set. cbn [combined_news_titles]. apply set_eq. intros t.
    rewrite !elem_of_list_to_set, elem_of_unique_titles.
    split; [|tauto]. intros Hin. split; [done|]. apply not_elem_of_empty.
  - apply sublist_length, unique_titles_sublist.
Qed.

(** ** The titles that are listed *)

(** X18: whatever the order in which the set of titles is iterated, the
    titles a front end lists are at most five, without repeats, all of
    them titles of contributing samples; none is listed when there is no
    overall sentiment, and all are when there are at most five. *)
Theorem listed_titles_sample
  {T : Type} `{Countable T} (set_order : gset T -> list T) (v : vars) :
  (∀ X, NoDup (set_order X) ∧ ∀ t, t ∈ set_order X ↔ t ∈ X) →
  let shown := listed_titles set_order v in
  (length shown ≤ 5)%nat
  ∧ NoDup shown
  ∧ (∀ t, t ∈ shown → t ∈ combined_news_titles v)
  ∧ (overall_news_sentiment v = None → shown = [])
  ∧ (is_Some (overall_news_sentiment v) →
     length shown = Nat.min 5 (size (title_set v)))
  ∧ (is_Some (overall_news_sentiment v) → (size (title_set v) ≤ 5)%nat →
     ∀ t, t ∈ shown ↔ t ∈ combined_news_titles v).
Proof.
  intros Horder shown. subst shown. unfold listed_titles.
  destruct (Horder (title_set v)) as [Hnd Hel].
  assert (length (set_order (title_set v)) = size (title_set v)) as Hlen.
  { unfold size, set_size. simpl. apply Permutation_length.
    apply NoDup_Permutation; [done|apply NoDup_elements|].
    intros t. by rewrite Hel, elem_of_elements. }
  assert (∀ t, t ∈ set_order (title_set v) ↔ t ∈ combined_news_titles v)
    as Hel'.
  { intros t. rewrite Hel. unfold title_set. apply elem_of_list_to_set. }
  destruct (overall_news_sentiment v) as [s|].
  - split; [rewrite length_take; lia|].
    split; [eapply sublist_NoDup; [done|apply sublist_take]|].
    split.
    { intros t Hin. apply Hel'.
      eapply elem_of_sublist; [done|apply sublist_take]. }
    split; [done|]. split.
    { intros _. by rewrite length_take, Hlen. }
    intros _ Hsize t. rewrite take_ge by lia. apply Hel'.
  - split; [simpl; lia|]. split; [constructor|].
    split; [by intros t Hin%elem_of_nil|]. split; [done|].
    split; by intros [? ?].
Qed.

Lemma listed_titles_sample_witness :
  let v : @vars string :=
    aggregate Desktop
      [(Some f0_2, ["Title A"; "Title A"]%string); (Some f0_4, ["Title B"]%string)]
      unbound in
  let shown := listed_titles elements v in
  (length shown ≤ 5)%nat
  ∧ NoDup shown
  ∧ (∀ t, t ∈ shown → t ∈ combined_news_titles v)
  ∧ (overall_news_sentiment v = None → shown = [])
  ∧ (is_Some (overall_news_sentiment v) →
     length shown = Nat.min 5 (size (title_set v)))
  ∧ (is_Some (overall_news_sentiment v) → (size (title_set v) ≤ 5)%nat →
     ∀ t, t ∈ shown ↔ t ∈ combined_news_titles v).
Proof.
  intros v. apply (listed_titles_sample elements v).
  intros X. split; [apply NoDup_elements|].
  intros t. apply elem_of_elements.
Defined.

(** ** The charts *)

Ltac break_hyps :=
  repeat match goal with
         | Hx : ∃ _, _ |- _ => destruct Hx
         | Hx : _ ∧ _ |- _ => destruct Hx
         | Hx : _ ∨ _ |- _ => destruct Hx
         end.

Lemma sma_trace_names (rolling_mean : nat -> list float64 -> list float64)
      (df_hist : list bar) (n : nat) (name : string) :
  map plot_name (sma_trace rolling_mean df_hist n name) =
  (if (n <=? length df_hist)%nat then [name] else [])
  ∧ Forall (λ p, plot_x p = map bar_date df_hist)
           (sma_trace rolling_mean df_hist n name).
Proof.
  unfold sma_trace. destruct (n <=? length df_hist)%nat; simpl;
    split; by repeat constructor.
Qed.

(** X19: the price chart is missing exactly when there is no frame or an
    empty one. Otherwise it starts with the candlesticks and ends with the
    volume bars, has the moving average over [n] rows exactly when the
    frame has at least [n] rows, for 20, 50 and 200 in this order, and
    every plot is drawn over the dates of the frame. *)
Theorem price_volume_chart_plots
  (rolling_mean : nat -> list float64 -> list float64)
  (df_hist : option (list bar)) (ticker : string) :
  let chart := create_price_volume_chart rolling_mean df_hist ticker in
  (chart = None ↔ df_hist = None ∨ df_hist = Some [])
  ∧ ∀ rows fig, df_hist = Some rows → chart = Some fig →
      let n := length rows in
      map plot_name (fig_data fig) =
        ["Price (OHLC)"%string]
        ++ (if (20 <=? n)%nat then ["SMA 20"%string] else [])
        ++ (if (50 <=? n)%nat then ["SMA 50"%string] else [])
        ++ (if (200 <=? n)%nat then ["SMA 200"%string] else [])
        ++ ["Volume"%string]
      ∧ Forall (λ p, plot_x p = map bar_date rows) (fig_data fig)
      ∧ (2 ≤ length (fig_data fig) ≤ 5)%nat
      ∧ fig_title fig = String.append ticker " Price, SMAs, and Volume".
Proof.
  intros chart. subst chart. split.
  - destruct df_hist as [[|b rows]|]; simpl; split; intros; break_hyps;
      try done; auto.
  - intros rows fig -> Hfig n.
    destruct rows as [|b rows]; [done|].
    unfold create_price_volume_chart in Hfig. injection Hfig as <-.
    cbn [fig_data fig_title].
    set (df := b :: rows) in *.
    destruct (sma_trace_names rolling_mean df 20 "SMA 20") as [N20 X20].
    destruct (sma_trace_names rolling_mean df 50 "SMA 50") as [N50 X50].
    destruct (sma_trace_names rolling_mean df 200 "SMA 200") as [N200 X200].
    match goal with
    | |- map plot_name ?data = ?names ∧ _ =>
        assert (map plot_name data = names) as Hnames
    end.
    { rewrite map_cons, !map_app, N20, N50, N200. reflexivity. }
    split; [done|]. split; [|split; [|done]].
    + apply Forall_cons. split; [done|].
      repeat (apply Forall_app; split); try done. by repeat constructor.
    + apply (f_equal length) in Hnames. rewrite length_map in Hnames.
      rewrite Hnames. subst n.
      destruct (20 <=? length df)%nat, (50 <=? length df)%nat,
        (200 <=? length df)%nat; simpl; lia.
Qed.

(** X20: making the RSI chart never raises. There is a chart only when
    TA-Lib was imported, the frame has at least 14 rows and [talib.RSI]
    returned; it then plots the series from its 14th value on, over the
    dates from the 14th on, which is at least one date, with lines at 70
    and 30. An error message is shown exactly when [talib.RSI] raised. *)
Theorem rsi_chart_guards
  (talib : option talib_module) (df_hist : option (list bar))
  (ticker : string) :
  let run := create_rsi_chart talib df_hist ticker in
  (∃ chart, result run = Return chart)
  ∧ (∀ fig, result run = Return (Some fig) →
       ∃ ta rows rsi_series,
         talib = Some ta ∧ df_hist = Some rows ∧ (14 ≤ length rows)%nat
         ∧ talib_RSI ta (map bar_close rows) 14 = Return rsi_series
         ∧ fig_data fig =
           [Scatter "RSI" (drop 13 (map bar_date rows)) (drop 13 rsi_series)]
         ∧ length (drop 13 (map bar_date rows)) = (length rows - 13)%nat
         ∧ (1 ≤ length rows - 13)%nat
         ∧ fig_hlines fig = [70%Z; 30%Z])
  ∧ (trace run ≠ [] ↔
       ∃ ta rows e,
         talib = Some ta ∧ df_hist = Some rows ∧ (14 ≤ length rows)%nat
         ∧ talib_RSI ta (map bar_close rows) 14 = Raise e).
Proof.
  intros run. subst run. unfold create_rsi_chart.
  destruct talib as [ta|], df_hist as [rows|];
    try (repeat split; intros; break_hyps; by eauto).
  destruct (length rows <? 14)%nat eqn:Hlen.
  - apply Nat.ltb_lt in Hlen.
    repeat split; intros; break_hyps; simplify_eq; try done; eauto; lia.
  - apply Nat.ltb_ge in Hlen.
    destruct (talib_RSI ta (map bar_close rows) 14) as [rsi|e] eqn:Hr; simpl.
    + split; [eauto|]. split.
      * intros fig [= <-]. exists ta, rows, rsi. cbn [fig_data fig_hlines].
        rewrite length_drop, length_map. repeat split; try done; lia.
      * split; [done|]. intros; break_hyps; simplify_eq. congruence.
    + split; [eauto|]. split; [done|]. split; [|done].
      intros _. by exists ta, rows, e.
Qed.

(** X21: making the MACD chart never raises. There is a chart only when
    TA-Lib was imported, the frame has at least 35 rows and [talib.MACD]
    returned; its three plots are drawn over the same dates, those from
    the 34th on, at least two; the histogram has one colour per bar: the
    green "#26A69A" for a bar whose value is at least zero, so for 0.1 and
    for either zero, and the red "#EF5350" for every other bar, so for -0.5
    and for a value that is not a number. An error message is shown exactly
    when [talib.MACD] raised. *)
Theorem macd_chart_guards
  (talib : option talib_module) (df_hist : option (list bar))
  (ticker : string) :
  let run := create_macd_chart talib df_hist ticker in
  (∃ chart, result run = Return chart)
  ∧ (∀ fig, result run = Return (Some fig) →
       ∃ ta rows macd macdsignal macdhist colors,
         talib = Some ta ∧ df_hist = Some rows ∧ (35 ≤ length rows)%nat
         ∧ talib_MACD ta (map bar_close rows) 12 26 9 =
           Return (macd, macdsignal, macdhist)
         ∧ fig_data fig =
           [Scatter "MACD Line" (drop 33 (map bar_date rows)) (drop 33 macd);
            Scatter "Signal Line" (drop 33 (map bar_date rows))
                    (drop 33 macdsignal);
            Bars "MACD Histogram" (drop 33 (map bar_date rows))
                 (drop 33 macdhist) colors]
         ∧ length colors = length (drop 33 macdhist)
         ∧ (∀ (i : nat) (val : float64),
              drop 33 macdhist !! i = Some val →
              colors !! i =
              Some (if ge_zero val then "#26A69A" else "#EF5350")%string)
         ∧ (2 ≤ length (drop 33 (map bar_date rows)))%nat)
  ∧ (trace run ≠ [] ↔
       ∃ ta rows e,
         talib = Some ta ∧ df_hist = Some rows ∧ (35 ≤ length rows)%nat
         ∧ talib_MACD ta (map bar_close rows) 12 26 9 = Raise e)
  ∧ (ge_zero f0_1 = true ∧ ge_zero zero = true
     ∧ ge_zero (S754_zero true) = true
     ∧ ge_zero fm0_5 = false ∧ ge_zero S754_nan = false).
Proof.
  intros run. subst run. unfold create_macd_chart.
  split; [|split; [|split; [|by vm_compute]]];
    destruct talib as [ta|], df_hist as [rows|];
    try (repeat split; intros; break_hyps; by eauto).
  all: destruct (length rows <? 35)%nat eqn:Hlen;
    [apply Nat.ltb_lt in Hlen|apply Nat.ltb_ge in Hlen].
  all: try (repeat split; intros; break_hyps; simplify_eq;
            try done; eauto; lia).
  all: destruct (talib_MACD ta (map bar_close rows) 12 26 9)
    as [[[macd macdsignal] macdhist]|e] eqn:Hr; simpl.
  - eauto.
  - eauto.
  - intros fig [= <-].
    exists ta, rows, macd, macdsignal, macdhist. eexists.
    cbn [fig_data]. repeat split; try done.
    + by rewrite length_map.
    + intros i val Hval. rewrite list_lookup_fmap, Hval. done.
    + rewrite length_drop, length_map. lia.
  - done.
  - split; [done|]. intros; break_hyps; simplify_eq. congruence.
  - split; [|done]. intros _. by exists ta, rows, e.
Qed.

(** ** The theorems above on sample runs *)

Lemma desktop_analysis_arguments_witness :
  truthy (upper (strip " aapl ")) = true
  ∧ usable_history not_empty (data_ok "AAPL") = Some tt
  ∧ current_price (data_ok "AAPL") = Some f0_5
  ∧ result (_fetch_news_from_newsapi_for_gui one_article (scorer f0_6) "AAPL") =
    Return (Some f0_6, [Some "AAPL beats earnings"%string])
  ∧ List.filter is_analysis
      (trace (analyze_stock_action strip upper unit not_empty data_ok
                one_article (scorer f0_6) rss_url no_rss
                (Some "key"%string) " aapl ")) =
    [call_analyze_stock (Some f0_6);
     call_enhanced_analysis "AAPL" (Some f0_6)
       [Some "AAPL beats earnings"%string];
     call_summarize [Some "AAPL beats earnings"%string] "AAPL"].
Proof.
  split; [reflexivity|]. split; [reflexivity|]. split; [reflexivity|].
  split; [reflexivity|].
  apply (desktop_analysis_arguments strip upper unit not_empty data_ok
           one_article (scorer f0_6) rss_url no_rss (Some "key"%string)
           " aapl " tt f0_5 (Some f0_6, [Some "AAPL beats earnings"%string]));
    reflexivity.
Defined.

Lemma desktop_stops_without_data_witness :
  let run := analyze_stock_action strip upper unit not_empty data_error
               one_article (scorer f0_6) rss_url no_rss None " aapl " in
  truthy (upper (strip " aapl ")) = true
  ∧ usable_history not_empty (data_error "AAPL") = None
  ∧ result run = Return tt
  ∧ List.filter is_call (trace run) = [call_get_stock_data "AAPL"]
  ∧ length (trace run) = 4%nat
  ∧ (truthy_opt (error (data_error "AAPL")) = true →
     last (trace run) =
     Some (output_insert
             (String.append "Error: "
                (String.append
                   (default EmptyString (error (data_error "AAPL"))) "
")))).
Proof.
  intros run. split; [reflexivity|]. split; [reflexivity|].
  apply (desktop_stops_without_data strip upper unit not_empty data_error
           one_article (scorer f0_6) rss_url no_rss None " aapl ");
    reflexivity.
Defined.

Lemma desktop_fetches_witness :
  truthy (upper (strip " aapl ")) = true
  ∧ usable_history not_empty (data_ok "AAPL") = Some tt
  ∧ current_price (data_ok "AAPL") = Some f0_5
  ∧ result (_fetch_news_from_newsapi_for_gui one_article (scorer f0_6) "AAPL") =
    Return (Some f0_6, [Some "AAPL beats earnings"%string])
  ∧ List.filter is_fetch
      (trace (analyze_stock_action strip upper unit not_empty data_ok
                one_article (scorer f0_6) rss_url no_rss None " aapl ")) =
    [call_get_everything "AAPL";
     call_fetch_rss "https://news.google.com/rss/search?q=AAPL" "AAPL"].
Proof.
  split; [reflexivity|]. split; [reflexivity|]. split; [reflexivity|].
  split; [reflexivity|].
  apply (desktop_fetches strip upper unit not_empty data_ok one_article
           (scorer f0_6) rss_url no_rss None " aapl " tt f0_5
           (Some f0_6, [Some "AAPL beats earnings"%string])); reflexivity.
Defined.

Lemma web_analysis_arguments_witness :
  let samples := [newsapi_titles "RELIANCE.NS"; gnews_titles "RELIANCE.NS"] in
  let titles := combined_news_titles (aggregate Web samples unbound) in
  truthy (strip "reliance.ns") = true
  ∧ usable_history not_empty (data_ok "RELIANCE.NS") = Some tt
  ∧ List.filter is_analysis
      (trace (analyze_stock_button strip upper unit not_empty data_ok true
                (Some "k"%string) (Some "g"%string) newsapi_titles
                gnews_titles (scorer f0_6) "reliance.ns")) =
    [call_analyze_stock (Some (S754_finite false 5404319552844596 (-54)));
     call_enhanced_analysis "RELIANCE.NS"
       (Some (S754_finite false 5404319552844596 (-54)))
       [Some "Title A"; Some "B"]%string]
  ∧ NoDup titles
  ∧ ∀ t, t ∈ titles ↔ t ∈ contributed_titles samples.
Proof.
  intros samples titles. split; [reflexivity|]. split; [reflexivity|].
  apply (web_analysis_arguments strip upper unit not_empty data_ok true
           (Some "k"%string) (Some "g"%string) newsapi_titles gnews_titles
           (scorer f0_6) "reliance.ns" tt); reflexivity.
Defined.

Lemma web_stops_without_data_witness :
  let run := analyze_stock_button strip upper unit not_empty data_error true
               (Some "k"%string) (Some "g"%string) newsapi_titles
               gnews_titles (scorer f0_6) "reliance.ns" in
  truthy (strip "reliance.ns") = true
  ∧ usable_history not_empty (data_error "RELIANCE.NS") = None
  ∧ result run = Return tt
  ∧ List.filter is_call (trace run) = [call_get_stock_data "RELIANCE.NS"]
  ∧ length (trace run) = 3%nat
  ∧ (truthy_opt (error (data_error "RELIANCE.NS")) = true →
     last (trace run) =
     Some (st_error (String.append "Error fetching data: "
                       (default EmptyString
                          (error (data_error "RELIANCE.NS")))))).
Proof.
  intros run. split; [reflexivity|]. split; [reflexivity|].
  apply (web_stops_without_data strip upper unit not_empty data_error true
           (Some "k"%string) (Some "g"%string) newsapi_titles gnews_titles
           (scorer f0_6) "reliance.ns"); reflexivity.
Defined.

Lemma web_fetches_witness :
  truthy (strip "reliance.ns") = true
  ∧ usable_history not_empty (data_ok "RELIANCE.NS") = Some tt
  ∧ List.filter is_fetch
      (trace (analyze_stock_button strip upper unit not_empty data_ok true
                None (Some "g"%string) newsapi_titles
                gnews_titles (scorer f0_6) "reliance.ns")) =
    [call_fetch_gnews "RELIANCE.NS"].
Proof.
  split; [reflexivity|]. split; [reflexivity|].
  apply (web_fetches strip upper unit not_empty data_ok true
           None (Some "g"%string) newsapi_titles gnews_titles
           (scorer f0_6) "reliance.ns" tt); reflexivity.
Defined.

Lemma web_event_analysis_text_witness :
  truthy (strip "reliance.ns") = true
  ∧ usable_history not_empty (data_ok "RELIANCE.NS") = Some tt
  ∧ truthy (strip (sample_news_item "RELIANCE.NS")) = true
  ∧ List.filter is_extract
      (trace (analyze_stock_button strip upper unit not_empty data_ok true
                None (Some "g"%string) newsapi_titles
                gnews_blank_title (scorer f0_6) "reliance.ns")) = [].
Proof.
  split; [reflexivity|]. split; [reflexivity|]. split; [reflexivity|].
  apply (web_event_analysis_text strip upper unit not_empty data_ok true
           None (Some "g"%string) newsapi_titles gnews_blank_title
           (scorer f0_6) "reliance.ns" tt); reflexivity.
Defined.

Lemma ticker_is_stripped_and_uppercased_witness :
  let desktop :=
    analyze_stock_action strip upper unit not_empty data_ok one_article
      (scorer f0_6) rss_url no_rss None " aapl " in
  let web :=
    analyze_stock_button strip upper unit not_empty data_ok true
      (Some "k"%string) (Some "g"%string) newsapi_titles gnews_titles
      (scorer f0_6) " aapl " in
  (∀ s, upper s = EmptyString ↔ s = EmptyString)
  ∧ (strip " aapl " = EmptyString →
       desktop =
       (Return tt,
        [showwarning "Input Error" "Please enter a stock ticker symbol."])
       ∧ web = (Return tt, [st_warning "Please enter a stock ticker symbol."]))
  ∧ (strip " aapl " ≠ EmptyString →
     trace desktop !! 2%nat = Some (call_get_stock_data "AAPL")
     ∧ trace web !! 1%nat = Some (call_get_stock_data "AAPL"))
  ∧ (∀ e, e ∈ trace desktop ∨ e ∈ trace web →
          (is_call e = true → strip " aapl " ≠ EmptyString)
          ∧ (∀ t, event_ticker e = Some t → t = "AAPL"%string)).
Proof.
  intros desktop web.
  assert (∀ s, upper s = EmptyString ↔ s = EmptyString) as Hupper.
  { intros s. rewrite <- !truthy_false. by rewrite truthy_upper. }
  split; [done|].
  apply (ticker_is_stripped_and_uppercased strip upper unit not_empty data_ok
           one_article (scorer f0_6) rss_url no_rss None true
           (Some "k"%string) (Some "g"%string) newsapi_titles gnews_titles
           " aapl " Hupper).
Defined.
